(** * The booking service of ticketmaster-go: reserve, confirm, cancel, list

    A shallow embedding of [internal/services/booking/booking.go] together with
    the parts of [internal/redis], [internal/models] and [internal/payment] it
    calls.  The two stores are explicit state: the Postgres tables the handlers
    touch and the Redis keys [ticket_lock:<id>].  Everything a handler obtains
    from outside (clock readings, the random draw of the mock gateway, and
    whether a store call comes back with an error) is read from an environment
    [Env], one per request.

    After the booking service come the rest of the Redis client (lock
    extension and the waiting queue), the accounts of the API gateway
    ([internal/services/gateway]: Register and Login) and the search document
    the CDC service builds for an event ([internal/services/cdc]). *)

From Stdlib Require Import PrimFloat Ascii String DecimalString.
From Stdlib Require FloatAxioms SpecFloat.
From stdpp Require Import gmap strings list.

Set Default Proof Using "Type".
Set Warnings "-inexact-float".
Local Open Scope Z_scope.

(** ** Go base types *)

(** [uint] ids are never computed with by the handlers (only compared and
    handed to the stores), so they are plain [N]; [time.Time] and
    [time.Duration] are nanosecond counts; [float64] is the binary64 type. *)
Abbreviation uint := N (only parsing).
Abbreviation float64 := float (only parsing).

Module time.
Definition Duration := Z.
Definition Microsecond : Duration := 1000.
Definition Second : Duration := 1000000000.
Definition Minute : Duration := 60 * Second.
(** [t.Add(d)] *)
Definition Add (t : Z) (d : Duration) : Z := t + d.
(** [t.After(u)]: t is strictly later than u *)
Definition After (t u : Z) : bool := u <? t.
(** [t.Unix()] *)
Definition Unix (t : Z) : Z := t / Second.
End time.

Module strconv.
Definition digit (a : ascii) : option N :=
  let n := N_of_ascii a in
  if ((48 <=? n) && (n <=? 57))%N then Some (n - 48)%N else None.

Fixpoint digits (acc : N) (s : string) : option N :=
  match s with
  | EmptyString => Some acc
  | String a s' =>
      match digit a with
      | Some d => digits (10 * acc + d)%N s'
      | None => None
      end
  end.

(** A non-empty run of decimal digits, nothing else. *)
Definition decimal (s : string) : option N :=
  match s with
  | EmptyString => None
  | _ => digits 0 s
  end.

(** [strconv.ParseUint(s, 10, bitSize)]; [None] is the [err != nil] case. *)
Definition ParseUint (s : string) (bitSize : N) : option N :=
  match decimal s with
  | Some n => if (n <? 2 ^ bitSize)%N then Some n else None
  | None => None
  end.

(** [fmt.Sprintf("%d", n)] for an unsigned and for a signed number. *)
Definition FormatUint (n : N) : string := NilEmpty.string_of_uint (N.to_uint n).
Definition FormatInt (z : Z) : string := NilEmpty.string_of_int (Z.to_int z).
End strconv.

(** ** models *)

Module Ticket.
(** [models.Ticket].  Of the embedded [gorm.Model] the primary key and the
    soft-delete stamp are kept; [CreatedAt] and [UpdatedAt] are read by no
    handler. *)
Record t := mk {
  ID : uint;
  DeletedAt : option Z;
  EventID : uint;
  Seat : string;
  Price : float64;
  Status : string;
  UserID : option uint
}.
Definition zero : t := mk 0%N None 0%N "" 0%float "" None.
Definition with_Status (s : string) (x : t) : t :=
  mk (ID x) (DeletedAt x) (EventID x) (Seat x) (Price x) s (UserID x).
Definition with_UserID (u : option uint) (x : t) : t :=
  mk (ID x) (DeletedAt x) (EventID x) (Seat x) (Price x) (Status x) u.
End Ticket.

Module Booking.
(** [models.Booking]; [PaymentID] is a [uint] column.  The associations that
    the handlers preload (the ticket of a booking, the event of a ticket) are
    loaded by the store operations below and are no fields of a row. *)
Record t := mk {
  ID : uint;
  DeletedAt : option Z;
  TicketID : uint;
  UserID : uint;
  Status : string;
  ReservedAt : Z;
  ExpiresAt : Z;
  PaymentID : uint
}.
Definition with_ID (i : uint) (x : t) : t :=
  mk i (DeletedAt x) (TicketID x) (UserID x) (Status x) (ReservedAt x) (ExpiresAt x) (PaymentID x).
Definition with_DeletedAt (d : option Z) (x : t) : t :=
  mk (ID x) d (TicketID x) (UserID x) (Status x) (ReservedAt x) (ExpiresAt x) (PaymentID x).
Definition with_Status (s : string) (x : t) : t :=
  mk (ID x) (DeletedAt x) (TicketID x) (UserID x) s (ReservedAt x) (ExpiresAt x) (PaymentID x).
Definition with_PaymentID (p : uint) (x : t) : t :=
  mk (ID x) (DeletedAt x) (TicketID x) (UserID x) (Status x) (ReservedAt x) (ExpiresAt x) p.
End Booking.

(** ** The durable store: gorm over Postgres *)

Module gorm.

Inductive error :=
| ErrRecordNotFound           (* gorm.ErrRecordNotFound *)
| ErrMissingWhereClause       (* gorm.ErrMissingWhereClause: update or delete without a primary key *)
| ErrInvalidTextRepresentation (* SQLSTATE 22P02: the text is no number *)
| ErrNotNullViolation         (* SQLSTATE 23502 *)
| ErrDatatypeMismatch         (* SQLSTATE 42804: a number for a text column *)
| ErrUndefinedColumn          (* SQLSTATE 42703 *)
| ErrUnavailable.             (* the call did not reach the database *)

Inductive result (A : Type) :=
| Ok (a : A)
| Err (e : error).
Arguments Ok {A} a.
Arguments Err {A} e.

(** The values of a [map[string]interface{}] handed to [Updates]. *)
Inductive Value :=
| VString (s : string)
| VUint (n : uint)
| VNil.

Record DB := mkDB {
  tickets : list Ticket.t;
  bookings : list Booking.t;
  bookings_id_seq : uint
}.

(** Every query of a model with [gorm.Model] adds [deleted_at IS NULL]. *)
Definition live {A} (deleted : A -> option Z) (r : A) : bool :=
  match deleted r with
  | None => true
  | Some _ => false
  end.

(** [ORDER BY id LIMIT 1] *)
Fixpoint first_by {A} (key : A -> uint) (l : list A) : option A :=
  match l with
  | [] => None
  | x :: l' =>
      match first_by key l' with
      | None => Some x
      | Some y => if (key x <=? key y)%N then Some x else Some y
      end
  end.

Definition select_tickets (d : DB) (cond : Ticket.t -> bool) : list Ticket.t :=
  filter (fun r => live Ticket.DeletedAt r && cond r) (tickets d).

Definition select_bookings (d : DB) (cond : Booking.t -> bool) : list Booking.t :=
  filter (fun r => live Booking.DeletedAt r && cond r) (bookings d).

(** [db.First(&ticket, id)] *)
Definition FirstTicket (fault : bool) (d : DB) (id : uint) : result Ticket.t :=
  if fault then Err ErrUnavailable else
  match first_by Ticket.ID (select_tickets d (fun r => (Ticket.ID r =? id)%N)) with
  | Some r => Ok r
  | None => Err ErrRecordNotFound
  end.

(** [Preload("Ticket")]: the ticket the booking refers to, or the zero value. *)
Definition PreloadTicket (d : DB) (b : Booking.t) : Ticket.t :=
  match first_by Ticket.ID (select_tickets d (fun r => (Ticket.ID r =? Booking.TicketID b)%N)) with
  | Some r => r
  | None => Ticket.zero
  end.

(** [db.Preload("Ticket").First(&booking, cond...)] *)
Definition FirstBooking (fault : bool) (d : DB) (cond : Booking.t -> bool)
  : result (Booking.t * Ticket.t) :=
  if fault then Err ErrUnavailable else
  match first_by Booking.ID (select_bookings d cond) with
  | Some b => Ok (b, PreloadTicket d b)
  | None => Err ErrRecordNotFound
  end.

(** [db.Find(&bookings, cond...)] *)
Definition FindBookings (fault : bool) (d : DB) (cond : Booking.t -> bool)
  : result (list Booking.t) :=
  if fault then Err ErrUnavailable else Ok (select_bookings d cond).

(** A [time.Time] as a [timestamptz] column keeps it: Postgres stores whole
    microseconds, and the driver sends the time with the nanoseconds below
    the microsecond dropped. *)
Definition timestamptz (t : Z) : Z := t / time.Microsecond * time.Microsecond.

(** [db.Create(&booking)]: the row gets the next value of the id sequence
    and the two times as the columns keep them; the struct of the caller
    gets the id and keeps its own times. *)
Definition CreateBooking (fault : bool) (d : DB) (b : Booking.t)
  : result (DB * Booking.t) :=
  if fault then Err ErrUnavailable else
  let id := (bookings_id_seq d + 1)%N in
  let row :=
    Booking.mk id (Booking.DeletedAt b) (Booking.TicketID b) (Booking.UserID b)
      (Booking.Status b) (timestamptz (Booking.ReservedAt b))
      (timestamptz (Booking.ExpiresAt b)) (Booking.PaymentID b) in
  Ok (mkDB (tickets d) (bookings d ++ [row]) id, Booking.with_ID id b).

(** What Postgres does with one [SET column = value] of each table: the
    column's type decides whether the value is taken.  A text value for a
    [bigint] column is taken only when it spells a number.  The handlers
    write text to [status], a number or NULL to [user_id], and text to
    [payment_id].  (Text that spells a number is told apart by its digits
    alone: the text the gateway of this service returns, [pi_mock_...],
    starts with a letter, which no reading of a number takes.) *)
Definition assign_ticket (a : string * Value) : result (Ticket.t -> Ticket.t) :=
  let (col, v) := a in
  if String.eqb col "status" then
    match v with
    | VString s => Ok (Ticket.with_Status s)
    | VUint _ => Err ErrDatatypeMismatch
    | VNil => Err ErrNotNullViolation
    end
  else if String.eqb col "user_id" then
    match v with
    | VUint n => Ok (Ticket.with_UserID (Some n))
    | VNil => Ok (Ticket.with_UserID None)
    | VString s =>
        match strconv.decimal s with
        | Some n => Ok (Ticket.with_UserID (Some n))
        | None => Err ErrInvalidTextRepresentation
        end
    end
  else Err ErrUndefinedColumn.

Definition assign_booking (a : string * Value) : result (Booking.t -> Booking.t) :=
  let (col, v) := a in
  if String.eqb col "status" then
    match v with
    | VString s => Ok (Booking.with_Status s)
    | VUint _ => Err ErrDatatypeMismatch
    | VNil => Ok (Booking.with_Status "")
    end
  else if String.eqb col "payment_id" then
    match v with
    | VUint n => Ok (Booking.with_PaymentID n)
    | VNil => Err ErrNotNullViolation
    | VString s =>
        match strconv.decimal s with
        | Some n => Ok (Booking.with_PaymentID n)
        | None => Err ErrInvalidTextRepresentation
        end
    end
  else Err ErrUndefinedColumn.

(** All assignments of one statement, composed left to right; the first one
    the database refuses fails the statement. *)
Fixpoint assignments {A} (assign : string * Value -> result (A -> A))
    (l : list (string * Value)) : result (A -> A) :=
  match l with
  | [] => Ok (fun r => r)
  | a :: l' =>
      match assign a with
      | Err e => Err e
      | Ok f =>
          match assignments assign l' with
          | Err e => Err e
          | Ok g => Ok (fun r => g (f r))
          end
      end
  end.

Definition update_where {A} (hit : A -> bool) (f : A -> A) (l : list A) : list A :=
  map (fun r => if hit r then f r else r) l.

(** [db.Model(&ticket).Updates(values)] and [.Update(column, value)]:
    [UPDATE tickets SET ... WHERE id = ? AND deleted_at IS NULL]. *)
Definition UpdatesTicket (fault : bool) (d : DB) (id : uint)
    (values : list (string * Value)) : result DB :=
  if fault then Err ErrUnavailable else
  if (id =? 0)%N then Err ErrMissingWhereClause else
  match assignments assign_ticket values with
  | Err e => Err e
  | Ok f =>
      Ok (mkDB
            (update_where (fun r => live Ticket.DeletedAt r && (Ticket.ID r =? id)%N) f (tickets d))
            (bookings d) (bookings_id_seq d))
  end.

(** [db.Model(&booking).Updates(values)] and [.Update(column, value)] *)
Definition UpdatesBooking (fault : bool) (d : DB) (id : uint)
    (values : list (string * Value)) : result DB :=
  if fault then Err ErrUnavailable else
  if (id =? 0)%N then Err ErrMissingWhereClause else
  match assignments assign_booking values with
  | Err e => Err e
  | Ok f =>
      Ok (mkDB (tickets d)
            (update_where (fun r => live Booking.DeletedAt r && (Booking.ID r =? id)%N) f (bookings d))
            (bookings_id_seq d))
  end.

(** [db.Delete(&booking)]: a soft delete, [UPDATE bookings SET deleted_at = now
    WHERE id = ? AND deleted_at IS NULL]. *)
Definition DeleteBooking (fault : bool) (d : DB) (id : uint) (now : Z) : result DB :=
  if fault then Err ErrUnavailable else
  if (id =? 0)%N then Err ErrMissingWhereClause else
  Ok (mkDB (tickets d)
        (update_where (fun r => live Booking.DeletedAt r && (Booking.ID r =? id)%N)
           (Booking.with_DeletedAt (Some (timestamptz now))) (bookings d))
        (bookings_id_seq d)).

(** A statement whose error the caller drops: the store it leaves behind. *)
Definition ignoring (d : DB) (r : result DB) : DB :=
  match r with
  | Ok d' => d'
  | Err _ => d
  end.

End gorm.

(** ** The lock store: internal/redis *)

Module redis.

(** The value of key [ticket_lock:<ticketID>].  [LockTicket] is the only
    writer of these keys and writes [fmt.Sprintf("%d", userID)], which
    [GetTicketLockOwner] scans back with ["%d"]; the entry holds the number. *)
Record Entry := mkEntry {
  value : uint;
  set_at : Z;
  ttl : time.Duration
}.

Inductive error :=
| Nil            (* redis.Nil: no such key *)
| ErrLocked      (* "ticket %d is already locked" *)
| ErrUnavailable.

(** A key is gone once its time to live has run out. *)
Definition alive (now : Z) (e : Entry) : bool := now <? set_at e + ttl e.

Definition GET (now : Z) (rdb : gmap N Entry) (key : N) : option Entry :=
  match rdb !! key with
  | Some e => if alive now e then Some e else None
  | None => None
  end.

(** [LockTicket]: [SETNX key value 10m] *)
Definition LockTicket (fault : bool) (now : Z) (rdb : gmap N Entry)
    (ticketID userID : uint) : gmap N Entry * option error :=
  if fault then (rdb, Some ErrUnavailable) else
  match GET now rdb ticketID with
  | Some _ => (rdb, Some ErrLocked)
  | None => (<[ticketID := mkEntry userID now (10 * time.Minute)]> rdb, None)
  end.

(** [UnlockTicket]: [DEL key] *)
Definition UnlockTicket (fault : bool) (rdb : gmap N Entry) (ticketID : uint)
  : gmap N Entry * option error :=
  if fault then (rdb, Some ErrUnavailable) else (delete ticketID rdb, None).

(** [GetTicketLockOwner]: [GET key], scanned as a number *)
Definition GetTicketLockOwner (fault : bool) (now : Z) (rdb : gmap N Entry)
    (ticketID : uint) : uint * option error :=
  if fault then (0%N, Some ErrUnavailable) else
  match GET now rdb ticketID with
  | None => (0%N, Some Nil)
  | Some e => (value e, None)
  end.



(** The lists [waiting_queue:<eventID>], head first; a list that runs empty
    is a key that is gone.  The elements are written with ["%d"] and scanned
    back with ["%d"], so the list holds the numbers. *)
Definition queue (qs : gmap N (list uint)) (eventID : uint) : list uint :=
  default [] (qs !! eventID).

Definition store_queue (qs : gmap N (list uint)) (eventID : uint) (l : list uint)
  : gmap N (list uint) :=
  match l with
  | [] => delete eventID qs
  | _ => <[eventID := l]> qs
  end.

(** [LPOS]: the index of the first occurrence, counted from the head. *)
Fixpoint LPOS (x : uint) (l : list uint) : option nat :=
  match l with
  | [] => None
  | y :: l' => if (y =? x)%N then Some O else S <$> LPOS x l'
  end.

(** [AddToWaitingQueue]: [LPUSH key userID] *)
Definition AddToWaitingQueue (fault : bool) (qs : gmap N (list uint))
    (eventID userID : uint) : gmap N (list uint) * option error :=
  if fault then (qs, Some ErrUnavailable)
  else (store_queue qs eventID (userID :: queue qs eventID), None).

(** [GetWaitingQueuePosition]: [LPOS key userID] *)
Definition GetWaitingQueuePosition (fault : bool) (qs : gmap N (list uint))
    (eventID userID : uint) : Z * option error :=
  if fault then (-1, Some ErrUnavailable) else
  match LPOS userID (queue qs eventID) with
  | Some i => (Z.of_nat i, None)
  | None => (-1, Some Nil)
  end.

(** [ProcessWaitingQueue]: [RPOP key] *)
Definition ProcessWaitingQueue (fault : bool) (qs : gmap N (list uint))
    (eventID : uint) : gmap N (list uint) * (uint * option error) :=
  if fault then (qs, (0%N, Some ErrUnavailable)) else
  match rev (queue qs eventID) with
  | [] => (qs, (0%N, Some Nil))
  | userID :: rest => (store_queue qs eventID (rev rest), (userID, None))
  end.

End redis.

(** ** The payment gateway: internal/payment *)

Module payment.

Record PaymentIntent := mkIntent {
  ID : string;
  Amount : float64;
  Currency : string;
  Status : string
}.

Record PaymentRequest := mkRequest {
  req_Amount : float64;
  req_Currency : string;
  req_UserID : uint;
  req_TicketID : uint
}.

(** [PaymentResponse]; the pointer field [PaymentIntent] is the record it
    points to, which every response of the client carries. *)
Record PaymentResponse := mkResponse {
  Intent : PaymentIntent;
  Success : bool;
  Error : string
}.

(** What a call of the client returns: a response, or [err != nil]. *)
Definition outcome : Type := PaymentResponse + string.

(** [MockStripeClient.CreatePaymentIntent], given the configured success rate,
    the clock and the draw of [rand.Float64()].  It never returns an error. *)
Definition CreatePaymentIntent (MockStripeSuccessRate : float64) (now : Z)
    (draw : float64) (req : PaymentRequest) : outcome :=
  let paymentID :=
    ("pi_mock_" ++ strconv.FormatUint (req_UserID req) ++ "_"
       ++ strconv.FormatInt (time.Unix now))%string in
  let success := PrimFloat.ltb draw MockStripeSuccessRate in
  let status := if success then "succeeded" else "failed" in
  let errMsg := if success then "" else "Mock payment failure - insufficient funds" in
  inl (mkResponse (mkIntent paymentID (req_Amount req) (req_Currency req) status)
         success errMsg).

End payment.

(** ** Requests, responses and the environment of one request *)

(** The JSON document of a request body, as far as the handlers bind it. *)
Record JSONBody := mkBody {
  ticketId : option uint;
  paymentDetails : option string
}.

(** [gin.Context] on the way in: the [Authorization] header ([""] when
    absent), the path parameter of the route, and the body ([None] when it is
    not a JSON object). *)
Record Request := mkReq {
  Authorization : string;
  Param : string;
  Body : option JSONBody
}.

(** The values of a [gin.H]. *)
Inductive JSON :=
| JString (s : string)
| JUint (n : uint)
| JInt (z : Z)
| JTime (t : Z)
| JBookings (l : list Booking.t).

(** [c.JSON(code, gin.H{...})] *)
Record Response := mkResp {
  code : Z;
  H : list (string * JSON)
}.

Module http.
Definition StatusOK : Z := 200.
Definition StatusBadRequest : Z := 400.
Definition StatusUnauthorized : Z := 401.
Definition StatusPaymentRequired : Z := 402.
Definition StatusForbidden : Z := 403.
Definition StatusNotFound : Z := 404.
Definition StatusConflict : Z := 409.
Definition StatusGone : Z := 410.
Definition StatusInternalServerError : Z := 500.
End http.

Definition error_response (c : Z) (msg : string) : Response :=
  mkResp c [("error", JString msg)].

(** The store calls of the handlers, by call site.  A handler makes each of
    them at most once per request. *)
Inductive Call :=
| FirstTicket        (* ReserveTicket: db.Preload("Event").First(&ticket, id) *)
| SetNX              (* LockTicket *)
| CreateBooking      (* ReserveTicket: db.Create(&booking) *)
| UpdateTicket       (* the ticket update outside a transaction, in ReserveTicket
                        and in the expiry branch of ConfirmBooking *)
| Del                (* UnlockTicket *)
| FirstBooking       (* ConfirmBooking, CancelBooking: db.Preload(...).First(&booking, ...) *)
| DeleteBooking      (* ConfirmBooking: db.Delete(&booking) *)
| Get                (* GetTicketLockOwner *)
| TxBegin
| TxUpdateBooking
| TxUpdateTicket
| TxCommit
| FindBookings.      (* GetUserBookings: db.Find(&bookings, ...) *)

(** The clock readings of the handlers: [time.Now()] in the service, the
    server time of Redis when it runs a command, the stamp of a soft delete. *)
Inductive Clock :=
| AtSetNX
| AtReservedAt
| AtExpiresAt
| AtExpiryCheck
| AtDelete
| AtGet
| AtPaymentIntent.

#[global] Instance Call_eq_dec : EqDecision Call.
Proof. solve_decision. Defined.

Record Env := mkEnv {
  fails : Call -> bool;
  now : Clock -> Z;
  Float64 : float64   (* rand.Float64() in the mock gateway *)
}.

Record World := mkWorld {
  db : gorm.DB;
  rdb : gmap N redis.Entry
}.

(** Modelled from the spec: the claims of a validated token.  Package [auth]
    is missing; the operations take the caller's user id, which is the one
    field the handlers read from the claims.  The two functions of the package
    are parameters of the service below. *)
Record Claims := mkClaims { UserID : uint }.

(** ** The handlers *)

Section Service.

(** [auth.ExtractTokenFromHeader] and [auth.ValidateToken] (with the
    service's configuration); [None] is their [err != nil]. *)
Variable ExtractTokenFromHeader : string -> option string.
Variable ValidateToken : string -> option Claims.

(** The [paymentClient] field of the service: its [CreatePaymentIntent]. *)
Variable paymentClient : Env -> payment.PaymentRequest -> payment.outcome.

(** The opening of every handler: header, token, claims. *)
Definition authenticate (q : Request) : Response + Claims :=
  let authHeader := Authorization q in
  if String.eqb authHeader "" then
    inl (error_response http.StatusUnauthorized "Authorization header required")
  else
    match ExtractTokenFromHeader authHeader with
    | None => inl (error_response http.StatusUnauthorized "Invalid authorization header")
    | Some tokenString =>
        match ValidateToken tokenString with
        | None => inl (error_response http.StatusUnauthorized "Invalid token")
        | Some claims => inr claims
        end
    end.

(** [c.ShouldBindJSON(&req)] with [binding:"required"] on every field: a
    field that is missing or has its zero value is refused. *)
Definition bind_TicketID (q : Request) : option uint :=
  match Body q with
  | Some b =>
      match ticketId b with
      | Some n => if (n =? 0)%N then None else Some n
      | None => None
      end
  | None => None
  end.

Definition bind_PaymentDetails (q : Request) : option string :=
  match Body q with
  | Some b =>
      match paymentDetails b with
      | Some s => if String.eqb s "" then None else Some s
      | None => None
      end
  | None => None
  end.

(** The conditions of the two booking queries:
    ["ticket_id = ? AND user_id = ? AND status = ?"] with status ["reserved"],
    and ["id = ? AND user_id = ?"]. *)
Definition reservation_of (ticketID userID : uint) (b : Booking.t) : bool :=
  (Booking.TicketID b =? ticketID)%N && (Booking.UserID b =? userID)%N
  && String.eqb (Booking.Status b) "reserved".

Definition booking_of (bookingID userID : uint) (b : Booking.t) : bool :=
  (Booking.ID b =? bookingID)%N && (Booking.UserID b =? userID)%N.

(** The answer to a body that does not bind (its ["details"] entry, the
    binder's own message, is left out). *)
Definition invalid_request_data : Response :=
  error_response http.StatusBadRequest "Invalid request data".

Definition ReserveTicket (e : Env) (w : World) (q : Request) : Response * World :=
  match authenticate q with
  | inl r => (r, w)
  | inr claims =>
  match bind_TicketID q with
  | None => (invalid_request_data, w)
  | Some req_TicketID =>
  (* Check if ticket exists and is available *)
  match gorm.FirstTicket (fails e FirstTicket) (db w) req_TicketID with
  | gorm.Err gorm.ErrRecordNotFound =>
      (error_response http.StatusNotFound "Ticket not found", w)
  | gorm.Err _ =>
      (error_response http.StatusInternalServerError "Failed to fetch ticket", w)
  | gorm.Ok ticket =>
  if negb (String.eqb (Ticket.Status ticket) "available") then
    (error_response http.StatusConflict "Ticket is not available", w)
  else
  (* Try to lock the ticket in Redis *)
  match redis.LockTicket (fails e SetNX) (now e AtSetNX) (rdb w) req_TicketID (UserID claims) with
  | (rdb1, Some _) =>
      (error_response http.StatusConflict
         "Ticket is currently being processed by another user", mkWorld (db w) rdb1)
  | (rdb1, None) =>
  (* Create booking record *)
  let booking :=
    Booking.mk 0%N None req_TicketID (UserID claims) "reserved"
      (now e AtReservedAt)
      (time.Add (now e AtExpiresAt) (10 * time.Minute))
      0%N in
  match gorm.CreateBooking (fails e CreateBooking) (db w) booking with
  | gorm.Err _ =>
      (* Release the lock if database operation fails *)
      let (rdb2, _) := redis.UnlockTicket (fails e Del) rdb1 req_TicketID in
      (error_response http.StatusInternalServerError "Failed to create booking",
       mkWorld (db w) rdb2)
  | gorm.Ok (db1, booking) =>
  (* Update ticket status *)
  let db2 :=
    gorm.ignoring db1
      (gorm.UpdatesTicket (fails e UpdateTicket) db1 (Ticket.ID ticket)
         [("status", gorm.VString "reserved")]) in
  (mkResp http.StatusOK
     [("bookingId", JUint (Booking.ID booking));
      ("ticketId", JUint req_TicketID);
      ("expiresAt", JTime (Booking.ExpiresAt booking));
      ("message", JString "Ticket reserved successfully")],
   mkWorld db2 rdb1)
  end end end end end.

Definition ConfirmBooking (e : Env) (w : World) (q : Request) : Response * World :=
  match authenticate q with
  | inl r => (r, w)
  | inr claims =>
  match bind_TicketID q, bind_PaymentDetails q with
  | None, _ | _, None => (invalid_request_data, w)
  | Some req_TicketID, Some _ =>
  (* Check if booking exists and belongs to user *)
  match gorm.FirstBooking (fails e FirstBooking) (db w)
          (reservation_of req_TicketID (UserID claims)) with
  | gorm.Err gorm.ErrRecordNotFound =>
      (error_response http.StatusNotFound "No active reservation found for this ticket", w)
  | gorm.Err _ =>
      (error_response http.StatusInternalServerError "Failed to fetch booking", w)
  | gorm.Ok (booking, booking_Ticket) =>
  (* Check if reservation has expired *)
  if time.After (now e AtExpiryCheck) (Booking.ExpiresAt booking) then
    (* Clean up expired booking *)
    let db1 :=
      gorm.ignoring (db w)
        (gorm.DeleteBooking (fails e DeleteBooking) (db w) (Booking.ID booking) (now e AtDelete)) in
    let (rdb1, _) := redis.UnlockTicket (fails e Del) (rdb w) req_TicketID in
    let db2 :=
      gorm.ignoring db1
        (gorm.UpdatesTicket (fails e UpdateTicket) db1 req_TicketID
           [("status", gorm.VString "available")]) in
    (error_response http.StatusGone "Reservation has expired", mkWorld db2 rdb1)
  else
  (* Verify the ticket is still locked by this user *)
  match redis.GetTicketLockOwner (fails e Get) (now e AtGet) (rdb w) req_TicketID with
  | (_, Some _) =>
      (error_response http.StatusConflict "Ticket lock has been released", w)
  | (lockOwner, None) =>
  if negb (lockOwner =? UserID claims)%N then
    (error_response http.StatusConflict "Ticket lock has been released", w)
  else
  (* Process payment *)
  let paymentReq :=
    payment.mkRequest (Ticket.Price booking_Ticket) "ntd" (UserID claims) req_TicketID in
  match paymentClient e paymentReq with
  | inr _ =>
      (error_response http.StatusInternalServerError "Payment processing failed", w)
  | inl paymentResp =>
  if negb (payment.Success paymentResp) then
    (mkResp http.StatusPaymentRequired
       [("error", JString "Payment failed");
        ("details", JString (payment.Error paymentResp))], w)
  else
  (* Start database transaction: tx works on its own copy of the tables,
     which replaces the store's at Commit and is dropped by Rollback *)
  let tx := db w in
  (* Update booking status *)
  match gorm.UpdatesBooking (fails e TxBegin || fails e TxUpdateBooking) tx (Booking.ID booking)
          [("status", gorm.VString "confirmed");
           ("payment_id", gorm.VString (payment.ID (payment.Intent paymentResp)))] with
  | gorm.Err _ =>
      (error_response http.StatusInternalServerError "Failed to confirm booking", w)
  | gorm.Ok tx1 =>
  (* Update ticket status and assign to user *)
  match gorm.UpdatesTicket (fails e TxUpdateTicket) tx1 (Ticket.ID booking_Ticket)
          [("status", gorm.VString "booked");
           ("user_id", gorm.VUint (UserID claims))] with
  | gorm.Err _ =>
      (error_response http.StatusInternalServerError "Failed to update ticket", w)
  | gorm.Ok tx2 =>
  (* Commit transaction *)
  if fails e TxCommit then
    (error_response http.StatusInternalServerError "Failed to confirm booking", w)
  else
  (* Release Redis lock *)
  let (rdb1, _) := redis.UnlockTicket (fails e Del) (rdb w) req_TicketID in
  (mkResp http.StatusOK
     [("bookingId", JUint (Booking.ID booking));
      ("ticketId", JUint req_TicketID);
      ("paymentId", JString (payment.ID (payment.Intent paymentResp)));
      ("message", JString "Booking confirmed successfully")],
   mkWorld tx2 rdb1)
  end end end end end end end.

Definition CancelBooking (e : Env) (w : World) (q : Request) : Response * World :=
  match strconv.ParseUint (Param q) 32 with
  | None => (error_response http.StatusBadRequest "Invalid booking ID", w)
  | Some bookingID =>
  match authenticate q with
  | inl r => (r, w)
  | inr claims =>
  (* Check if booking exists and belongs to user *)
  match gorm.FirstBooking (fails e FirstBooking) (db w)
          (booking_of bookingID (UserID claims)) with
  | gorm.Err gorm.ErrRecordNotFound =>
      (error_response http.StatusNotFound "Booking not found", w)
  | gorm.Err _ =>
      (error_response http.StatusInternalServerError "Failed to fetch booking", w)
  | gorm.Ok (booking, booking_Ticket) =>
  (* Start database transaction *)
  let tx := db w in
  (* Update booking status *)
  match gorm.UpdatesBooking (fails e TxBegin || fails e TxUpdateBooking) tx (Booking.ID booking)
          [("status", gorm.VString "cancelled")] with
  | gorm.Err _ =>
      (error_response http.StatusInternalServerError "Failed to cancel booking", w)
  | gorm.Ok tx1 =>
  (* Update ticket status back to available *)
  match gorm.UpdatesTicket (fails e TxUpdateTicket) tx1 (Ticket.ID booking_Ticket)
          [("status", gorm.VString "available");
           ("user_id", gorm.VNil)] with
  | gorm.Err _ =>
      (error_response http.StatusInternalServerError "Failed to update ticket", w)
  | gorm.Ok tx2 =>
  (* Commit transaction *)
  if fails e TxCommit then
    (error_response http.StatusInternalServerError "Failed to cancel booking", w)
  else
  (* Release Redis lock if it exists *)
  let (rdb1, _) := redis.UnlockTicket (fails e Del) (rdb w) (Booking.TicketID booking) in
  (mkResp http.StatusOK [("message", JString "Booking cancelled successfully")],
   mkWorld tx2 rdb1)
  end end end end end.

(** [GetUserBookings] reads only; the preloaded ticket, event, venue and
    performer of each booking are left out of the answer. *)
Definition GetUserBookings (e : Env) (w : World) (q : Request) : Response :=
  match strconv.ParseUint (Param q) 32 with
  | None => error_response http.StatusBadRequest "Invalid user ID"
  | Some userID =>
  match authenticate q with
  | inl r => r
  | inr claims =>
  (* Verify user can only access their own bookings *)
  if negb (UserID claims =? userID)%N then
    error_response http.StatusForbidden "Access denied"
  else
  match gorm.FindBookings (fails e FindBookings) (db w)
          (fun b => (Booking.UserID b =? userID)%N) with
  | gorm.Err _ =>
      error_response http.StatusInternalServerError "Failed to fetch bookings"
  | gorm.Ok bookings =>
      mkResp http.StatusOK
        [("bookings", JBookings bookings);
         ("count", JInt (Z.of_nat (length bookings)))]
  end end end.

Definition HealthCheck : Response :=
  mkResp http.StatusOK
    [("status", JString "healthy"); ("service", JString "booking-service")].

(** [SetupRoutes] *)
Inductive Route :=
| POST_booking_reserve
| PUT_booking_confirm
| DELETE_booking_cancel
| GET_booking_user
| GET_health.

Definition serve (route : Route) (e : Env) (w : World) (q : Request) : Response * World :=
  match route with
  | POST_booking_reserve => ReserveTicket e w q
  | PUT_booking_confirm => ConfirmBooking e w q
  | DELETE_booking_cancel => CancelBooking e w q
  | GET_booking_user => (GetUserBookings e w q, w)
  | GET_health => (HealthCheck, w)
  end.

End Service.

(** [NewService] wires the mock gateway into the service. *)
Definition MockStripeClient (MockStripeSuccessRate : float64)
  : Env -> payment.PaymentRequest -> payment.outcome :=
  fun e => payment.CreatePaymentIntent MockStripeSuccessRate (now e AtPaymentIntent) (Float64 e).

(** ** A concrete service to run the handlers on

    Stand-ins for the two functions of package [auth]: the header
    [Bearer <n>] carries the token [<n>], which is valid for user [n]. *)

Definition bearer (authHeader : string) : option string :=
  if String.prefix "Bearer " authHeader
  then Some (String.substring 7 (String.length authHeader - 7) authHeader)
  else None.

Definition token_claims (tokenString : string) : option Claims :=
  mkClaims <$> strconv.decimal tokenString.

(** The fault plan in which every store call works. *)
Definition no_faults : Call -> bool := fun _ => false.

(** The fault plan in which the call [c] fails and every other one works. *)
Definition only (c : Call) : Call -> bool := fun c' => bool_decide (c = c').

(** A clock that shows [t] at every reading of one request. *)
Definition at_time (t : Z) : Clock -> Z := fun _ => t.

(** The service as [NewService] builds it, with the default success rate. *)
Definition Reserve := ReserveTicket bearer token_claims.
Definition Confirm := ConfirmBooking bearer token_claims (MockStripeClient 0.95%float).
Definition Cancel := CancelBooking bearer token_claims.
Definition ListBookings := GetUserBookings bearer token_claims.

(** Ticket T1 of the seed data: a standard seat at 99.99, available. *)
Definition T1 : Ticket.t := Ticket.mk 1%N None 1%N "Standard-1" 99.99%float "available" None.

Definition world0 : World := mkWorld (gorm.mkDB [T1] [] 0%N) ∅.

Definition reserve_request (user ticket : string) : Request :=
  mkReq ("Bearer " ++ user) "" (Some (mkBody (strconv.decimal ticket) None)).
Definition confirm_request (user ticket : string) : Request :=
  mkReq ("Bearer " ++ user) "" (Some (mkBody (strconv.decimal ticket) (Some "tok_visa"))).
Definition cancel_request (user booking : string) : Request :=
  mkReq ("Bearer " ++ user) booking None.
Definition list_request (user whose : string) : Request :=
  mkReq ("Bearer " ++ user) whose None.

(** ** Observations

    What the statements below read off a world, a response or a request. *)

(** The holder of the lock on a ticket as Redis sees it at time [t]. *)
Definition holder (t : Z) (locks : gmap N redis.Entry) (ticketID : uint) : option uint :=
  redis.value <$> redis.GET t locks ticketID.

(** The bookings a response carries. *)
Definition revealed (r : Response) : list Booking.t :=
  flat_map (fun kv => match snd kv with JBookings l => l | _ => [] end) (H r).

(** The gateway call came back with an error, or with a declined payment. *)
Definition payment_failed (o : payment.outcome) : Prop :=
  match o with
  | inr _ => True
  | inl resp => payment.Success resp = false
  end.

(** The two answers for a payment that did not go through: 500 "Payment
    processing failed" for a failed call, 402 "Payment failed" for a declined
    payment. *)
Definition payment_failure_response (o : payment.outcome) : Response :=
  match o with
  | inr _ => error_response http.StatusInternalServerError "Payment processing failed"
  | inl resp =>
      mkResp http.StatusPaymentRequired
        [("error", JString "Payment failed"); ("details", JString (payment.Error resp))]
  end.

(** The statuses of a ticket that the handlers write. *)
Definition ticket_statuses : list string := ["available"; "reserved"; "booked"].

Definition statuses_in_domain (d : gorm.DB) : Prop :=
  forall r, r ∈ gorm.tickets d -> Ticket.Status r ∈ ticket_statuses.

(** A ticket update that sets [status] to [s], alone or together with
    [user_id]. *)
Definition sets_status (s : string) (values : list (string * gorm.Value)) : Prop :=
  values = [("status", gorm.VString s)]
  \/ exists v, values = [("status", gorm.VString s); ("user_id", v)].

Section Observations.
Variable ExtractTokenFromHeader : string -> option string.
Variable ValidateToken : string -> option Claims.

(** The request is well-formed, the caller is [claims], and the booking query
    finds the caller's reservation [b] of ticket [tid], with ticket row [t]. *)
Definition finds_reservation (e : Env) (w : World) (q : Request)
    (claims : Claims) (tid : uint) (b : Booking.t) (t : Ticket.t) : Prop :=
  authenticate ExtractTokenFromHeader ValidateToken q = inr claims /\
  bind_TicketID q = Some tid /\
  bind_PaymentDetails q <> None /\
  gorm.FirstBooking (fails e FirstBooking) (db w) (reservation_of tid (UserID claims))
    = gorm.Ok (b, t).

End Observations.

(** An environment without faults whose clocks all show [t]. *)
Definition quiet (t : Z) (draw : float64) : Env := mkEnv no_faults (at_time t) draw.

(** User 7 reserves T1 at time 0. *)
Definition world1 : World := snd (Reserve (quiet 0 0.5%float) world0 (reserve_request "7" "1")).

Definition B1 : Booking.t :=
  Booking.mk 1%N None 1%N 7%N "reserved" 0 (10 * time.Minute) 0%N.

Definition T1_reserved : Ticket.t := Ticket.with_Status "reserved" T1.


(** User 7 cancels booking 1 one minute after reserving; user 8 then reserves
    the freed ticket. *)
Definition world_cancelled : World :=
  snd (Cancel (quiet time.Minute 0.5%float) world1 (cancel_request "7" "1")).

Definition world_rebooked : World :=
  snd (Reserve (quiet (2 * time.Minute) 0.5%float) world_cancelled (reserve_request "8" "1")).

Definition B1_cancelled : Booking.t := Booking.with_Status "cancelled" B1.

Definition B2 : Booking.t :=
  Booking.mk 2%N None 1%N 8%N "reserved" (2 * time.Minute) (12 * time.Minute) 0%N.

(** The clock of a request that takes a few microseconds: Redis runs the
    [SETNX] at 0, the two [time.Now()] of the booking literal read 1 and 3
    microseconds. *)
Definition ticking : Clock -> Z :=
  fun c =>
    match c with
    | AtSetNX => 0
    | AtReservedAt => 1 * time.Microsecond
    | AtExpiresAt => 3 * time.Microsecond
    | _ => 4 * time.Microsecond
    end.

(** The same request on a clock read between two ticks of the store: the
    readings are 1200 ns and 3700 ns. *)
Definition between_ticks : Clock -> Z :=
  fun c =>
    match c with
    | AtSetNX => 0
    | AtReservedAt => 1200
    | AtExpiresAt => 3700
    | _ => 4000
    end.

(** Requests served by one handler one after the other, each in its own
    environment: the world they leave. *)
Fixpoint in_turn (handle : Env -> World -> Request -> Response * World)
    (l : list (Env * Request)) (w : World) : World :=
  match l with
  | [] => w
  | (e, q) :: l' => in_turn handle l' (snd (handle e w q))
  end.

(** ** Runs of the waiting queue *)

(** The users [us] join the queue of an event one after the other. *)
Definition join_all (qs : gmap N (list uint)) (eventID : uint) (us : list uint)
  : gmap N (list uint) :=
  foldl (fun qs u => fst (redis.AddToWaitingQueue false qs eventID u)) qs us.

(** [ProcessWaitingQueue] called [n] times: the answers in order, and the
    queues left. *)
Fixpoint process (n : nat) (qs : gmap N (list uint)) (eventID : uint)
  : list (uint * option redis.error) * gmap N (list uint) :=
  match n with
  | O => ([], qs)
  | S n' =>
      let (qs1, r) := redis.ProcessWaitingQueue false qs eventID in
      let (rs, qs2) := process n' qs1 eventID in
      (r :: rs, qs2)
  end.

(** The answer of [ProcessWaitingQueue] that hands out user [u]. *)
Definition served (u : uint) : uint * option redis.error := (u, None).

(** The primary keys of the bookings are in order: no two rows share an id,
    and every id is one the sequence has handed out. *)
Definition keys_ok (d : gorm.DB) : Prop :=
  NoDup (Booking.ID <$> gorm.bookings d)
  /\ forall b, b ∈ gorm.bookings d ->
       (0 < Booking.ID b)%N /\ (Booking.ID b <= gorm.bookings_id_seq d)%N.

Section Steps.
Variable ExtractTokenFromHeader : string -> option string.
Variable ValidateToken : string -> option Claims.

(** What a route does to the bookings: nothing, or it appends the row of a
    new reservation of the caller under the next id, or it rewrites the one
    row [b] that its query found for the caller, keeping id and user. *)
Inductive bookings_step (w w' : World) (q : Request) : Prop :=
| step_none :
    gorm.bookings (db w') = gorm.bookings (db w) ->
    gorm.bookings_id_seq (db w') = gorm.bookings_id_seq (db w) ->
    bookings_step w w' q
| step_append claims b :
    authenticate ExtractTokenFromHeader ValidateToken q = inr claims ->
    Booking.UserID b = UserID claims ->
    gorm.bookings (db w') =
      gorm.bookings (db w) ++ [Booking.with_ID (gorm.bookings_id_seq (db w) + 1)%N b] ->
    gorm.bookings_id_seq (db w') = (gorm.bookings_id_seq (db w) + 1)%N ->
    bookings_step w w' q
| step_rewrite claims b f :
    authenticate ExtractTokenFromHeader ValidateToken q = inr claims ->
    b ∈ gorm.bookings (db w) ->
    Booking.UserID b = UserID claims ->
    (forall r, Booking.ID (f r) = Booking.ID r /\ Booking.UserID (f r) = Booking.UserID r) ->
    gorm.bookings (db w') =
      gorm.update_where
        (fun r => gorm.live Booking.DeletedAt r && (Booking.ID r =? Booking.ID b)%N) f
        (gorm.bookings (db w)) ->
    gorm.bookings_id_seq (db w') = gorm.bookings_id_seq (db w) ->
    bookings_step w w' q.

End Steps.

(** The ticket row as Cancel writes it. *)
Definition freed (r : Ticket.t) : Ticket.t :=
  Ticket.with_UserID None (Ticket.with_Status "available" r).

(** The live rows of ticket [tid]: the [WHERE] of every ticket update. *)
Definition is_ticket (tid : uint) : Ticket.t -> bool :=
  fun r => gorm.live Ticket.DeletedAt r && (Ticket.ID r =? tid)%N.


(** The queue of event 1 after users 3, 5 and 8 joined in this order. *)
Definition queue_3_5_8 : gmap N (list uint) := join_all ∅ 1%N [3%N; 5%N; 8%N].

(** ** The API gateway: registration and login

    [internal/services/gateway]: the accounts behind the tokens that the
    booking handlers validate.  [auth.GenerateToken] is a parameter, as the
    other functions of package [auth] are; what [ShouldBindJSON] has bound
    and validated is the input of a handler ([None] when it refused). *)

Module gateway.

(** [models.User] *)
Record User := mkUser {
  ID : uint;
  DeletedAt : option Z;
  Email : string;
  Password : string;
  Name : string
}.

Record Users := mkUsers {
  users : list User;
  users_id_seq : uint
}.

Inductive error :=
| ErrRecordNotFound
| ErrDuplicatedKey     (* SQLSTATE 23505: the unique index on [email] *)
| ErrUnavailable.

Inductive result (A : Type) :=
| Ok (a : A)
| Err (e : error).
Arguments Ok {A} a.
Arguments Err {A} e.

(** The values of the nested [gin.H] of the answers. *)
#[local] Unset Elimination Schemes.
Inductive JSON :=
| JString (s : string)
| JUint (n : uint)
| JObject (fields : list (string * JSON)).
#[local] Set Elimination Schemes.

Record Response := mkResp {
  code : Z;
  H : list (string * JSON)
}.

Definition error_response (c : Z) (msg : string) : Response :=
  mkResp c [("error", JString msg)].

Definition StatusCreated : Z := 201.

(** [fmt.Sprintf("hashed_%s", password)] *)
Definition hashPassword (password : string) : string := ("hashed_" ++ password)%string.

Definition verifyPassword (password hashedPassword : string) : bool :=
  String.eqb hashedPassword ("hashed_" ++ password)%string.

(** [db.Where("email = ?", email).First(&user)] *)
Definition FirstByEmail (fault : bool) (d : Users) (email : string) : result User :=
  if fault then Err ErrUnavailable else
  match gorm.first_by ID
          (filter (fun u => gorm.live DeletedAt u && String.eqb (Email u) email) (users d)) with
  | Some u => Ok u
  | None => Err ErrRecordNotFound
  end.

(** [db.Create(&user)]: the unique index on [email] spans all rows, the
    soft-deleted ones too. *)
Definition Create (fault : bool) (d : Users) (u : User) : result (Users * User) :=
  if fault then Err ErrUnavailable else
  if existsb (fun r => String.eqb (Email r) (Email u)) (users d) then Err ErrDuplicatedKey else
  let id := (users_id_seq d + 1)%N in
  let u' := mkUser id (DeletedAt u) (Email u) (Password u) (Name u) in
  Ok (mkUsers (users d ++ [u']) id, u').

Inductive Call := CallFirst | CallCreate.

Record RegisterRequest := mkRegister {
  reg_Email : string;
  reg_Password : string;
  reg_Name : string
}.

Record LoginRequest := mkLogin {
  login_Email : string;
  login_Password : string
}.

Definition session (token : string) (user : User) : list (string * JSON) :=
  [("token", JString token);
   ("user", JObject [("id", JUint (ID user)); ("email", JString (Email user));
                     ("name", JString (Name user))])].

Section Handlers.

(** [auth.GenerateToken(config, userID, email)]; [None] is [err != nil]. *)
Variable GenerateToken : uint -> string -> option string.

(** (The ["details"] entry of the answer to a body that does not bind is
    left out, as in the booking service.) *)
Definition Register (fails : Call -> bool) (d : Users) (bound : option RegisterRequest)
  : Response * Users :=
  match bound with
  | None => (error_response http.StatusBadRequest "Invalid request data", d)
  | Some req =>
  (* Check if user already exists *)
  match FirstByEmail (fails CallFirst) d (reg_Email req) with
  | Ok _ => (error_response http.StatusConflict "User already exists", d)
  | Err _ =>
  let hashedPassword := hashPassword (reg_Password req) in
  (* Create user *)
  let user := mkUser 0%N None (reg_Email req) hashedPassword (reg_Name req) in
  match Create (fails CallCreate) d user with
  | Err _ => (error_response http.StatusInternalServerError "Failed to create user", d)
  | Ok (d1, user) =>
  (* Generate JWT token *)
  match GenerateToken (ID user) (Email user) with
  | None => (error_response http.StatusInternalServerError "Failed to generate token", d1)
  | Some token => (mkResp StatusCreated (session token user), d1)
  end end end end.

Definition Login (fails : Call -> bool) (d : Users) (bound : option LoginRequest)
  : Response * Users :=
  match bound with
  | None => (error_response http.StatusBadRequest "Invalid request data", d)
  | Some req =>
  (* Find user *)
  match FirstByEmail (fails CallFirst) d (login_Email req) with
  | Err _ => (error_response http.StatusUnauthorized "Invalid credentials", d)
  | Ok user =>
  (* Verify password *)
  if negb (verifyPassword (login_Password req) (Password user)) then
    (error_response http.StatusUnauthorized "Invalid credentials", d)
  else
  (* Generate JWT token *)
  match GenerateToken (ID user) (Email user) with
  | None => (error_response http.StatusInternalServerError "Failed to generate token", d)
  | Some token => (mkResp http.StatusOK (session token user), d)
  end end end.

End Handlers.

(** No two rows of the table share an email. *)
Definition emails_unique (d : Users) : Prop := NoDup (Email <$> users d).

End gateway.

(** A token generator to run the gateway on: the token of a user is their id
    in decimal, the token that [token_claims] reads. *)
Definition decimal_token (userID : uint) (email : string) : option string :=
  Some (strconv.FormatUint userID).

Definition all_work : gateway.Call -> bool := fun _ => false.

Definition alice : gateway.RegisterRequest :=
  gateway.mkRegister "alice@example.com" "s3cret!" "Alice".

Definition accounts1 : gateway.Users :=
  snd (gateway.Register decimal_token all_work (gateway.mkUsers [] 0%N) (Some alice)).

(** ** The CDC service: the search document of an event

    [internal/services/cdc/cdc.go]: [convertToElasticsearchEvent] builds the
    document that is indexed for an event from the event as it was loaded,
    with its venue, its performer and its tickets. *)

Module Venue.
(** [models.Venue] *)
Record t := mk {
  ID : uint;
  Location : string;
  SeatMap : string;
  Capacity : Z
}.
End Venue.

Module Performer.
(** [models.Performer] *)
Record t := mk {
  ID : uint;
  Name : string;
  Description : string;
  Genre : string
}.
End Performer.

Module Event.
(** [models.Event] *)
Record t := mk {
  ID : uint;
  VenueID : uint;
  PerformerID : uint;
  Name : string;
  Description : string;
  Date : Z;
  Venue : Venue.t;
  Performer : Performer.t;
  Tickets : list Ticket.t
}.
End Event.

Module ElasticsearchEvent.
(** [models.ElasticsearchEvent] *)
Record t := mk {
  ID : uint;
  VenueID : uint;
  PerformerID : uint;
  Name : string;
  Description : string;
  Date : string;
  Venue : string;
  Performer : string;
  Genre : string;
  Location : string;
  MinPrice : float64;
  MaxPrice : float64;
  AvailableTickets : Z
}.
End ElasticsearchEvent.

Module cdc.

(** [a > b] on [float64] *)
Definition gtb (a b : float64) : bool := PrimFloat.ltb b a.

(** One turn of the loop over [event.Tickets], on [minPrice], [maxPrice] and
    [availableCount].  (The count is an [int]; it stays below the length of
    the slice, so it never wraps.) *)
Definition price_range_step (acc : float64 * float64 * Z) (ticket : Ticket.t)
  : float64 * float64 * Z :=
  let '(minPrice, maxPrice, availableCount) := acc in
  (if PrimFloat.ltb (Ticket.Price ticket) minPrice then Ticket.Price ticket else minPrice,
   if gtb (Ticket.Price ticket) maxPrice then Ticket.Price ticket else maxPrice,
   if String.eqb (Ticket.Status ticket) "available" then availableCount + 1
   else availableCount).

Section Convert.

(** [t.Format("2006-01-02T15:04:05Z")] of package [time] *)
Variable Format : Z -> string.

Definition convertToElasticsearchEvent (event : Event.t) : ElasticsearchEvent.t :=
  let esEvent := ElasticsearchEvent.mk
    (Event.ID event) (Event.VenueID event) (Event.PerformerID event)
    (Event.Name event) (Event.Description event) (Format (Event.Date event))
    (Venue.Location (Event.Venue event))
    (Performer.Name (Event.Performer event))
    (Performer.Genre (Event.Performer event))
    (Venue.Location (Event.Venue event)) in
  (* Calculate price range and available tickets *)
  match Event.Tickets event with
  | [] => esEvent 0%float 0%float 0
  | first :: _ =>
    let '(minPrice, maxPrice, availableCount) :=
      fold_left price_range_step (Event.Tickets event)
                (Ticket.Price first, Ticket.Price first, 0) in
    esEvent minPrice maxPrice availableCount
  end.

End Convert.

(** [p != p]: the price is not a number. *)
Definition is_NaN (p : float64) : bool := negb (PrimFloat.eqb p p).

End cdc.

(** What the loop keeps true of [minPrice] and [maxPrice]: each is one of
    the prices seen so far, none of which is below the one or above the
    other. *)
Definition price_range (seen : list float64) (mn mx : float64) : Prop :=
  mn ∈ seen /\ mx ∈ seen
  /\ forall p, p ∈ seen -> PrimFloat.ltb p mn = false /\ PrimFloat.ltb mx p = false.

(** A formatter and an event to run the conversion on: the date as its Unix
    seconds in decimal; three tickets, the first one sold. *)
Definition unix_stamp (t : Z) : string := strconv.FormatInt (time.Unix t).

Definition concert : Event.t :=
  Event.mk 1%N 1%N 1%N "Concert" "" 0
    (Venue.mk 1%N "Taipei Arena" "" 15000)
    (Performer.mk 1%N "Mayday" "" "rock")
    [Ticket.mk 1%N None 1%N "A-1" 120%float "booked" (Some 7%N);
     Ticket.mk 2%N None 1%N "A-2" 80%float "available" None;
     Ticket.mk 3%N None 1%N "A-3" 200%float "available" None].

(** * Properties *)

(** ** The stores *)

Section Stores.
Import gorm.

Lemma first_by_elem {A} (key : A -> N) (l : list A) (x : A) :
  first_by key l = Some x -> x ∈ l.
Proof.
  revert x; induction l as [|y l IH]; intros x; simpl; [discriminate|].
  destruct (first_by key l) as [z|] eqn:Hz.
  - destruct (key y <=? key z)%N; intros [= <-]; [left | right; auto].
  - intros [= <-]; left.
Qed.

Lemma first_by_nil {A} (key : A -> N) (l : list A) :
  first_by key l = None -> l = [].
Proof.
  destruct l as [|y l]; [reflexivity|]; simpl.
  destruct (first_by key l) as [z|]; [destruct (key y <=? key z)%N|]; discriminate.
Qed.

Lemma select_bookings_elem (d : DB) (cond : Booking.t -> bool) (b : Booking.t) :
  b ∈ select_bookings d cond <->
  b ∈ bookings d /\ Booking.DeletedAt b = None /\ cond b = true.
Proof.
  unfold select_bookings. rewrite list_elem_of_filter.
  unfold live. destruct (Booking.DeletedAt b), (cond b); simpl; intuition congruence.
Qed.

Lemma select_tickets_elem (d : DB) (cond : Ticket.t -> bool) (r : Ticket.t) :
  r ∈ select_tickets d cond <->
  r ∈ tickets d /\ Ticket.DeletedAt r = None /\ cond r = true.
Proof.
  unfold select_tickets. rewrite list_elem_of_filter.
  unfold live. destruct (Ticket.DeletedAt r), (cond r); simpl; intuition congruence.
Qed.

(** What [First] hands back is a live row of the table that meets the
    condition. *)
Lemma FirstBooking_Ok fault d cond b t :
  FirstBooking fault d cond = Ok (b, t) ->
  fault = false /\ b ∈ bookings d /\ Booking.DeletedAt b = None /\ cond b = true
  /\ t = PreloadTicket d b.
Proof.
  unfold FirstBooking. destruct fault; [discriminate|].
  destruct (first_by _ _) as [b'|] eqn:Hf; [|discriminate].
  intros [= <- <-]. apply first_by_elem, select_bookings_elem in Hf. tauto.
Qed.

Lemma FirstTicket_Ok fault d id r :
  FirstTicket fault d id = Ok r ->
  fault = false /\ r ∈ tickets d /\ Ticket.DeletedAt r = None /\ Ticket.ID r = id.
Proof.
  unfold FirstTicket. destruct fault; [discriminate|].
  destruct (first_by _ _) as [r'|] eqn:Hf; [|discriminate].
  intros [= <-]. apply first_by_elem, select_tickets_elem in Hf.
  destruct Hf as (? & ? & ?%N.eqb_eq). tauto.
Qed.

Lemma reservation_of_true tid uid b :
  reservation_of tid uid b = true <->
  Booking.TicketID b = tid /\ Booking.UserID b = uid /\ Booking.Status b = "reserved".
Proof.
  unfold reservation_of. rewrite !andb_true_iff, !N.eqb_eq, String.eqb_eq. tauto.
Qed.

Lemma booking_of_true bid uid b :
  booking_of bid uid b = true <-> Booking.ID b = bid /\ Booking.UserID b = uid.
Proof. unfold booking_of. rewrite andb_true_iff, !N.eqb_eq. tauto. Qed.

Lemma elem_update_where {A} (hit : A -> bool) (f : A -> A) (l : list A) (y : A) :
  y ∈ update_where hit f l <->
  exists x, x ∈ l /\ y = (if hit x then f x else x).
Proof.
  unfold update_where. rewrite list_elem_of_fmap. split; intros (x & ? & ?); eauto.
Qed.

End Stores.

Lemma GetTicketLockOwner_holder fault t locks tid uid :
  redis.GetTicketLockOwner fault t locks tid = (uid, None) ->
  holder t locks tid = Some uid.
Proof.
  unfold redis.GetTicketLockOwner, holder. destruct fault; [discriminate|].
  destruct (redis.GET t locks tid); simpl; congruence.
Qed.

Lemma holder_GetTicketLockOwner t locks tid uid :
  holder t locks tid = Some uid ->
  redis.GetTicketLockOwner false t locks tid = (uid, None).
Proof.
  unfold redis.GetTicketLockOwner, holder.
  destruct (redis.GET t locks tid); simpl; congruence.
Qed.

(** ** Confirm: the two refusals that leave everything as it was *)

Section Confirm.
Variable ExtractTokenFromHeader : string -> option string.
Variable ValidateToken : string -> option Claims.
Variable paymentClient : Env -> payment.PaymentRequest -> payment.outcome.

Local Abbreviation authn := (authenticate ExtractTokenFromHeader ValidateToken).
Local Abbreviation confirm :=
  (ConfirmBooking ExtractTokenFromHeader ValidateToken paymentClient).
Local Abbreviation found := (finds_reservation ExtractTokenFromHeader ValidateToken).

(** C8: on a reservation that has not expired, when Redis names no holder for
    the ticket or names someone else (or cannot be asked), Confirm answers
    409 "Ticket lock has been released" and leaves the bookings, the tickets
    and the locks exactly as they were. *)
Theorem ConfirmBooking_lock_released e w q claims tid b t :
  found e w q claims tid b t ->
  time.After (now e AtExpiryCheck) (Booking.ExpiresAt b) = false ->
  holder (now e AtGet) (rdb w) tid <> Some (UserID claims) ->
  confirm e w q =
    (error_response http.StatusConflict "Ticket lock has been released", w).
Proof.
  intros (Ha & Ht & Hp & Hb) Hexp Hhold.
  unfold ConfirmBooking. rewrite Ha, Ht.
  destruct (bind_PaymentDetails q) as [pd|]; [clear Hp | congruence].
  rewrite Hb, Hexp.
  destruct (redis.GetTicketLockOwner _ _ _ _) as [owner [err|]] eqn:Hget; [reflexivity|].
  apply GetTicketLockOwner_holder in Hget.
  destruct (owner =? UserID claims)%N eqn:Hown; [|reflexivity].
  apply N.eqb_eq in Hown. congruence.
Qed.

(** C7: when the lock check has passed and the gateway call fails or the
    payment is declined, Confirm answers with the payment failure and changes
    nothing: tickets, bookings and locks are as before, so the booking is
    still [reserved] and the lock is still held by the caller. *)
Theorem ConfirmBooking_payment_failed e w q claims tid b t :
  found e w q claims tid b t ->
  time.After (now e AtExpiryCheck) (Booking.ExpiresAt b) = false ->
  fails e Get = false ->
  holder (now e AtGet) (rdb w) tid = Some (UserID claims) ->
  let o := paymentClient e (payment.mkRequest (Ticket.Price t) "ntd" (UserID claims) tid) in
  payment_failed o ->
  confirm e w q = (payment_failure_response o, w)
  /\ Booking.Status b = "reserved"
  /\ holder (now e AtGet) (rdb (snd (confirm e w q))) tid = Some (UserID claims).
Proof.
  intros (Ha & Ht & Hp & Hb) Hexp Hget Hhold o Hfail.
  assert (Hrun : confirm e w q = (payment_failure_response o, w)).
  { unfold ConfirmBooking. rewrite Ha, Ht.
    destruct (bind_PaymentDetails q) as [pd|]; [clear Hp | congruence].
    rewrite Hb, Hexp, Hget, (holder_GetTicketLockOwner _ _ _ _ Hhold), N.eqb_refl.
    simpl negb. cbv iota. fold o.
    destruct o as [resp|err]; simpl in *; [rewrite Hfail|]; reflexivity. }
  rewrite Hrun. repeat split; [|exact Hhold].
  apply FirstBooking_Ok in Hb. destruct Hb as (_ & _ & _ & Hc & _).
  apply reservation_of_true in Hc. tauto.
Qed.

End Confirm.

Example world1_rows :
  gorm.bookings (db world1) = [B1] /\ gorm.tickets (db world1) = [T1_reserved]
  /\ holder time.Minute (rdb world1) 1%N = Some 7%N.
Proof. vm_compute. repeat split. Qed.

(** One minute later the draw of the mock gateway is 0.99, above the success
    rate of 0.95: the payment is declined and nothing changes. *)
Lemma ConfirmBooking_payment_failed_witness :
  let e := quiet time.Minute 0.99%float in
  let o := MockStripeClient 0.95%float e (payment.mkRequest 99.99%float "ntd" 7%N 1%N) in
  Confirm e world1 (confirm_request "7" "1") = (payment_failure_response o, world1)
  /\ Booking.Status B1 = "reserved"
  /\ holder time.Minute (rdb (snd (Confirm e world1 (confirm_request "7" "1")))) 1%N = Some 7%N.
Proof.
  apply (ConfirmBooking_payment_failed bearer token_claims (MockStripeClient 0.95%float)
           (quiet time.Minute 0.99%float) world1 (confirm_request "7" "1")
           (mkClaims 7%N) 1%N B1 T1_reserved).
  - repeat split; vm_compute; congruence.
  - vm_compute; reflexivity.
  - reflexivity.
  - vm_compute; reflexivity.
  - vm_compute; reflexivity.
Defined.

(** Redis was restarted after the reservation and holds no lock: Confirm
    refuses with 409 and changes nothing. *)
Lemma ConfirmBooking_lock_released_witness :
  let w := mkWorld (db world1) ∅ in
  Confirm (quiet time.Minute 0.5%float) w (confirm_request "7" "1") =
    (error_response http.StatusConflict "Ticket lock has been released", w).
Proof.
  apply (ConfirmBooking_lock_released bearer token_claims (MockStripeClient 0.95%float)
           (quiet time.Minute 0.5%float) (mkWorld (db world1) ∅) (confirm_request "7" "1")
           (mkClaims 7%N) 1%N B1 T1_reserved).
  - repeat split; vm_compute; congruence.
  - vm_compute; reflexivity.
  - vm_compute; congruence.
Defined.

(** ** Listing bookings *)

Section Listing.
Variable ExtractTokenFromHeader : string -> option string.
Variable ValidateToken : string -> option Claims.

Local Abbreviation authn := (authenticate ExtractTokenFromHeader ValidateToken).
Local Abbreviation list_bookings := (GetUserBookings ExtractTokenFromHeader ValidateToken).

(** C10: a caller whose token names another user than the one asked for is
    turned away with 403 and no booking; and every booking a response carries
    is a live row of the caller's own, the caller being the user asked for. *)
Theorem GetUserBookings_own_only e w q :
  (forall userID claims,
      strconv.ParseUint (Param q) 32 = Some userID ->
      authn q = inr claims ->
      UserID claims <> userID ->
      list_bookings e w q = error_response http.StatusForbidden "Access denied"
      /\ revealed (list_bookings e w q) = [])
  /\ (forall b,
        b ∈ revealed (list_bookings e w q) ->
        exists claims,
          authn q = inr claims
          /\ strconv.ParseUint (Param q) 32 = Some (UserID claims)
          /\ Booking.UserID b = UserID claims
          /\ b ∈ gorm.bookings (db w)
          /\ code (list_bookings e w q) = http.StatusOK).
Proof.
  unfold GetUserBookings. split.
  - intros userID claims -> -> Hne.
    destruct (UserID claims =? userID)%N eqn:Heq; [apply N.eqb_eq in Heq; congruence|].
    split; reflexivity.
  - intros b.
    destruct (strconv.ParseUint (Param q) 32) as [userID|]; [|intros []%elem_of_nil].
    destruct (authn q) as [r|claims] eqn:Ha.
    { unfold authenticate in Ha.
      destruct (String.eqb _ _); [injection Ha as <-; intros []%elem_of_nil|].
      destruct (ExtractTokenFromHeader _); [|injection Ha as <-; intros []%elem_of_nil].
      destruct (ValidateToken _); [discriminate|injection Ha as <-; intros []%elem_of_nil]. }
    destruct (UserID claims =? userID)%N eqn:Heq; [|intros []%elem_of_nil].
    apply N.eqb_eq in Heq. subst userID. simpl negb. cbv iota.
    unfold gorm.FindBookings. destruct (fails e FindBookings); [intros []%elem_of_nil|].
    unfold revealed; simpl. rewrite app_nil_r.
    intros (Hin & _ & Hu%N.eqb_eq)%select_bookings_elem.
    exists claims. auto.
Qed.

End Listing.

(** User 8 asks for the bookings of user 7 and is turned away; user 7 asks
    for their own and gets the reservation of T1, which is theirs. *)
Lemma GetUserBookings_own_only_witness :
  (ListBookings (quiet time.Minute 0.5%float) world1 (list_request "8" "7")
     = error_response http.StatusForbidden "Access denied"
   /\ revealed (ListBookings (quiet time.Minute 0.5%float) world1 (list_request "8" "7")) = [])
  /\ (exists claims,
        authenticate bearer token_claims (list_request "7" "7") = inr claims
        /\ strconv.ParseUint (Param (list_request "7" "7")) 32 = Some (UserID claims)
        /\ Booking.UserID B1 = UserID claims
        /\ B1 ∈ gorm.bookings (db world1)
        /\ code (ListBookings (quiet time.Minute 0.5%float) world1 (list_request "7" "7"))
           = http.StatusOK).
Proof.
  split.
  - apply (proj1 (GetUserBookings_own_only bearer token_claims
                    (quiet time.Minute 0.5%float) world1 (list_request "8" "7"))
             7%N (mkClaims 8%N)).
    + vm_compute; reflexivity.
    + vm_compute; reflexivity.
    + vm_compute; congruence.
  - apply (proj2 (GetUserBookings_own_only bearer token_claims
                    (quiet time.Minute 0.5%float) world1 (list_request "7" "7")) B1).
    vm_compute. left.
Defined.

(** User 7 asks for their own bookings and gets the reservation of T1. *)
Example GetUserBookings_own :
  ListBookings (quiet time.Minute 0.5%float) world1 (list_request "7" "7")
    = mkResp http.StatusOK [("bookings", JBookings [B1]); ("count", JInt 1)].
Proof. vm_compute. reflexivity. Qed.

(** ** What the store operations change *)

Section Frames.
Import gorm.

Lemma UpdatesTicket_Ok fault d id values d' :
  UpdatesTicket fault d id values = Ok d' ->
  exists f,
    fault = false /\ id <> 0%N /\ assignments assign_ticket values = Ok f
    /\ d' = mkDB (update_where (fun r => live Ticket.DeletedAt r && (Ticket.ID r =? id)%N) f
                    (tickets d))
               (bookings d) (bookings_id_seq d).
Proof.
  unfold UpdatesTicket. destruct fault; [discriminate|].
  destruct (id =? 0)%N eqn:Hid; [discriminate|]. apply N.eqb_neq in Hid.
  destruct (assignments assign_ticket values) as [f|]; [|discriminate].
  intros [= <-]. eauto.
Qed.

Lemma UpdatesBooking_Ok fault d id values d' :
  UpdatesBooking fault d id values = Ok d' ->
  exists f,
    fault = false /\ id <> 0%N /\ assignments assign_booking values = Ok f
    /\ d' = mkDB (tickets d)
               (update_where (fun r => live Booking.DeletedAt r && (Booking.ID r =? id)%N) f
                  (bookings d))
               (bookings_id_seq d).
Proof.
  unfold UpdatesBooking. destruct fault; [discriminate|].
  destruct (id =? 0)%N eqn:Hid; [discriminate|]. apply N.eqb_neq in Hid.
  destruct (assignments assign_booking values) as [f|]; [|discriminate].
  intros [= <-]. eauto.
Qed.

Lemma statuses_update_where hit f (d : DB) bs n :
  (forall r, Ticket.Status (f r) ∈ ticket_statuses) ->
  statuses_in_domain d ->
  statuses_in_domain (mkDB (update_where hit f (tickets d)) bs n).
Proof.
  intros Hf Hd y (x & Hx & ->)%elem_update_where.
  destruct (hit x); [apply Hf | apply Hd, Hx].
Qed.

Lemma statuses_same_tickets (d d' : DB) :
  tickets d' = tickets d -> statuses_in_domain d -> statuses_in_domain d'.
Proof. unfold statuses_in_domain. intros ->. auto. Qed.

Lemma sets_status_Ok s values f :
  sets_status s values -> assignments assign_ticket values = Ok f ->
  forall r, Ticket.Status (f r) = s.
Proof.
  intros [-> | [v ->]].
  - intros [= <-] r. reflexivity.
  - cbn. destruct v as [t|n|]; [destruct (strconv.decimal t)| |];
      try discriminate; intros [= <-] r; reflexivity.
Qed.

Lemma statuses_UpdatesTicket fault d id s values :
  sets_status s values -> s ∈ ticket_statuses ->
  statuses_in_domain d ->
  statuses_in_domain (ignoring d (UpdatesTicket fault d id values)).
Proof.
  intros Hv Hs Hd.
  destruct (UpdatesTicket fault d id values) as [d'|] eqn:Hu; [|exact Hd]. simpl.
  apply UpdatesTicket_Ok in Hu. destruct Hu as (f & _ & _ & Hf & ->).
  apply statuses_update_where; [|exact Hd].
  intros r. rewrite (sets_status_Ok _ _ _ Hv Hf). exact Hs.
Qed.

Lemma status_available : "available" ∈ ticket_statuses.
Proof. unfold ticket_statuses. set_solver. Qed.
Lemma status_reserved : "reserved" ∈ ticket_statuses.
Proof. unfold ticket_statuses. set_solver. Qed.
Lemma status_booked : "booked" ∈ ticket_statuses.
Proof. unfold ticket_statuses. set_solver. Qed.

End Frames.

(** ** Reserve *)

(** A branch that answers with an error code is not the successful one. *)
Ltac refused :=
  let Hcode := fresh "Hcode" in
  intros [= <- <-] Hcode; vm_compute in Hcode; discriminate.

Section Reserve.
Variable ExtractTokenFromHeader : string -> option string.
Variable ValidateToken : string -> option Claims.

Local Abbreviation authn := (authenticate ExtractTokenFromHeader ValidateToken).
Local Abbreviation reserve := (ReserveTicket ExtractTokenFromHeader ValidateToken).

(** The one path of [ReserveTicket] that answers 200. *)
Lemma ReserveTicket_OK e w q r w' :
  reserve e w q = (r, w') -> code r = http.StatusOK ->
  exists claims tid t locks,
    authn q = inr claims /\ bind_TicketID q = Some tid
    /\ gorm.FirstTicket (fails e FirstTicket) (db w) tid = gorm.Ok t
    /\ Ticket.Status t = "available"
    /\ redis.LockTicket (fails e SetNX) (now e AtSetNX) (rdb w) tid (UserID claims)
       = (locks, None)
    /\ fails e CreateBooking = false
    /\ let b := Booking.mk (gorm.bookings_id_seq (db w) + 1)%N None tid (UserID claims)
                  "reserved" (gorm.timestamptz (now e AtReservedAt))
                  (gorm.timestamptz (time.Add (now e AtExpiresAt) (10 * time.Minute)))
                  0%N in
       let db1 := gorm.mkDB (gorm.tickets (db w)) (gorm.bookings (db w) ++ [b])
                    (gorm.bookings_id_seq (db w) + 1)%N in
       w' = mkWorld
              (gorm.ignoring db1
                 (gorm.UpdatesTicket (fails e UpdateTicket) db1 (Ticket.ID t)
                    [("status", gorm.VString "reserved")]))
              locks
       /\ r = mkResp http.StatusOK
                [("bookingId", JUint (Booking.ID b)); ("ticketId", JUint tid);
                 ("expiresAt", JTime (time.Add (now e AtExpiresAt) (10 * time.Minute)));
                 ("message", JString "Ticket reserved successfully")].
Proof.
  unfold ReserveTicket.
  destruct (authn q) as [r0|claims] eqn:Ha.
  { unfold authenticate in Ha.
    destruct (String.eqb _ _); [injection Ha as <-; refused|].
    destruct (ExtractTokenFromHeader _); [|injection Ha as <-; refused].
    destruct (ValidateToken _); [discriminate|injection Ha as <-; refused]. }
  destruct (bind_TicketID q) as [tid|] eqn:Ht; [|refused].
  destruct (gorm.FirstTicket _ _ _) as [t|err] eqn:Hf; [|destruct err; refused].
  destruct (String.eqb (Ticket.Status t) "available") eqn:Hs; [|refused].
  apply String.eqb_eq in Hs. simpl negb. cbv iota.
  destruct (redis.LockTicket _ _ _ _ _) as [locks [err|]] eqn:Hl; [refused|].
  unfold gorm.CreateBooking.
  destruct (fails e CreateBooking) eqn:Hc.
  { destruct (redis.UnlockTicket _ _ _). refused. }
  intros [= <- <-] _. exists claims, tid, t, locks. repeat split; assumption.
Qed.

End Reserve.

(** ** The statuses of a ticket *)

Section Statuses.
Variable ExtractTokenFromHeader : string -> option string.
Variable ValidateToken : string -> option Claims.
Variable paymentClient : Env -> payment.PaymentRequest -> payment.outcome.

Local Abbreviation authn := (authenticate ExtractTokenFromHeader ValidateToken).
Local Abbreviation reserve := (ReserveTicket ExtractTokenFromHeader ValidateToken).
Local Abbreviation confirm :=
  (ConfirmBooking ExtractTokenFromHeader ValidateToken paymentClient).
Local Abbreviation cancel := (CancelBooking ExtractTokenFromHeader ValidateToken).
Local Abbreviation route := (serve ExtractTokenFromHeader ValidateToken paymentClient).

Lemma ReserveTicket_statuses e w q :
  statuses_in_domain (db w) -> statuses_in_domain (db (snd (reserve e w q))).
Proof.
  intros Hd. unfold ReserveTicket.
  destruct (authn q); [exact Hd|].
  destruct (bind_TicketID q); [|exact Hd].
  destruct (gorm.FirstTicket _ _ _) as [t|[]]; try exact Hd.
  destruct (negb _); [exact Hd|].
  destruct (redis.LockTicket _ _ _ _ _) as [locks [err|]]; [exact Hd|].
  destruct (gorm.CreateBooking _ _ _) as [[db1 b]|err] eqn:Hc.
  - simpl. unfold gorm.CreateBooking in Hc.
    destruct (fails e CreateBooking); [discriminate|]. injection Hc as <- <-.
    eapply statuses_UpdatesTicket; [left; reflexivity | apply status_reserved | exact Hd].
  - destruct (redis.UnlockTicket _ _ _). exact Hd.
Qed.

Lemma ConfirmBooking_statuses e w q :
  statuses_in_domain (db w) -> statuses_in_domain (db (snd (confirm e w q))).
Proof.
  intros Hd. unfold ConfirmBooking.
  destruct (authn q); [exact Hd|].
  destruct (bind_TicketID q) as [tid|]; [|exact Hd].
  destruct (bind_PaymentDetails q); [|exact Hd].
  destruct (gorm.FirstBooking _ _ _) as [[b t]|[]]; try exact Hd.
  destruct (time.After _ _).
  { destruct (redis.UnlockTicket _ _ _). simpl.
    eapply statuses_UpdatesTicket; [left; reflexivity | apply status_available |].
    destruct (gorm.DeleteBooking _ _ _ _) as [d1|] eqn:Hdel; [|exact Hd].
    unfold gorm.DeleteBooking in Hdel.
    destruct (fails e DeleteBooking); [discriminate|].
    destruct (Booking.ID b =? 0)%N; [discriminate|].
    injection Hdel as <-. exact Hd. }
  destruct (redis.GetTicketLockOwner _ _ _ _) as [owner [err|]]; [exact Hd|].
  destruct (negb (owner =? _)%N); [exact Hd|].
  destruct (paymentClient _ _) as [resp|err]; [|exact Hd].
  destruct (negb (payment.Success resp)); [exact Hd|].
  destruct (gorm.UpdatesBooking _ _ _ _) as [tx1|] eqn:H1; [|exact Hd].
  apply UpdatesBooking_Ok in H1. destruct H1 as (f & _ & _ & _ & ->).
  destruct (gorm.UpdatesTicket _ _ _ _) as [tx2|] eqn:H2; [|exact Hd].
  destruct (fails e TxCommit); [exact Hd|].
  destruct (redis.UnlockTicket _ _ _). simpl.
  change tx2 with (gorm.ignoring
    (gorm.mkDB (gorm.tickets (db w))
       (gorm.update_where
          (fun r => gorm.live Booking.DeletedAt r && (Booking.ID r =? Booking.ID b)%N) f
          (gorm.bookings (db w)))
       (gorm.bookings_id_seq (db w))) (gorm.Ok tx2)).
  rewrite <- H2.
  eapply statuses_UpdatesTicket; [right; eexists; reflexivity | apply status_booked | exact Hd].
Qed.

Lemma CancelBooking_statuses e w q :
  statuses_in_domain (db w) -> statuses_in_domain (db (snd (cancel e w q))).
Proof.
  intros Hd. unfold CancelBooking.
  destruct (strconv.ParseUint _ _); [|exact Hd].
  destruct (authn q); [exact Hd|].
  destruct (gorm.FirstBooking _ _ _) as [[b t]|[]]; try exact Hd.
  destruct (gorm.UpdatesBooking _ _ _ _) as [tx1|] eqn:H1; [|exact Hd].
  apply UpdatesBooking_Ok in H1. destruct H1 as (f & _ & _ & _ & ->).
  destruct (gorm.UpdatesTicket _ _ _ _) as [tx2|] eqn:H2; [|exact Hd].
  destruct (fails e TxCommit); [exact Hd|].
  destruct (redis.UnlockTicket _ _ _). simpl.
  change tx2 with (gorm.ignoring
    (gorm.mkDB (gorm.tickets (db w))
       (gorm.update_where
          (fun r => gorm.live Booking.DeletedAt r && (Booking.ID r =? Booking.ID b)%N) f
          (gorm.bookings (db w)))
       (gorm.bookings_id_seq (db w))) (gorm.Ok tx2)).
  rewrite <- H2.
  eapply statuses_UpdatesTicket; [right; eexists; reflexivity | apply status_available | exact Hd].
Qed.

(** No route writes a ticket status outside [ticket_statuses]. *)
Lemma serve_statuses r e w q :
  statuses_in_domain (db w) -> statuses_in_domain (db (snd (route r e w q))).
Proof.
  destruct r; simpl; auto using ReserveTicket_statuses, ConfirmBooking_statuses,
    CancelBooking_statuses.
Qed.

Lemma bind_TicketID_nonzero q tid : bind_TicketID q = Some tid -> tid <> 0%N.
Proof.
  unfold bind_TicketID. destruct (Body q) as [body|]; [|discriminate].
  destruct (ticketId body) as [n|]; [|discriminate].
  destruct (n =? 0)%N eqn:Hn; [discriminate|]. apply N.eqb_neq in Hn. congruence.
Qed.

(** C3, as the code has it: a Reserve that answers 200 on an available ticket
    has appended one live booking with status [reserved] for the caller and
    the ticket, and, when its ticket update is carried out, has set the status
    of the ticket's row to ["reserved"] (the code has no status ["locked"]);
    and no route of the service ever writes a ticket status other than
    [available], [reserved] and [booked]. *)
Theorem ReserveTicket_reserves :
  (forall e w q r w',
      reserve e w q = (r, w') ->
      code r = http.StatusOK ->
      fails e UpdateTicket = false ->
      exists claims tid b,
        authn q = inr claims /\ bind_TicketID q = Some tid
        /\ gorm.bookings (db w') = gorm.bookings (db w) ++ [b]
        /\ Booking.TicketID b = tid /\ Booking.UserID b = UserID claims
        /\ Booking.Status b = "reserved" /\ Booking.DeletedAt b = None
        /\ (exists t, t ∈ gorm.tickets (db w) /\ Ticket.DeletedAt t = None
                      /\ Ticket.ID t = tid /\ Ticket.Status t = "available")
        /\ (exists t', t' ∈ gorm.tickets (db w') /\ Ticket.DeletedAt t' = None
                       /\ Ticket.ID t' = tid)
        /\ (forall t', t' ∈ gorm.tickets (db w') -> Ticket.DeletedAt t' = None ->
                       Ticket.ID t' = tid -> Ticket.Status t' = "reserved"))
  /\ (forall r e w q,
        statuses_in_domain (db w) -> statuses_in_domain (db (snd (route r e w q)))).
Proof.
  split; [|exact serve_statuses].
  intros e w q r w' Hrun Hcode Hup.
  destruct (ReserveTicket_OK _ _ _ _ _ _ _ Hrun Hcode)
    as (claims & tid & t & locks & Ha & Ht & Hf & Hs & _ & _ & Hw & _).
  apply FirstTicket_Ok in Hf. destruct Hf as (_ & Hin & Hlive & Hid).
  pose proof (bind_TicketID_nonzero _ _ Ht) as Hnz.
  rewrite Hup, Hid in Hw. unfold gorm.UpdatesTicket in Hw.
  destruct (tid =? 0)%N eqn:Hz; [apply N.eqb_eq in Hz; congruence|].
  simpl in Hw. subst w'. simpl.
  eexists claims, tid, _. repeat split; try reflexivity; try assumption.
  - exists t. auto.
  - exists (Ticket.with_Status "reserved" t). repeat split; try assumption.
    apply elem_update_where. exists t. split; [assumption|].
    unfold gorm.live. rewrite Hlive, Hid, N.eqb_refl. reflexivity.
  - intros t' (x & Hx & ->)%elem_update_where.
    unfold gorm.live.
    destruct (Ticket.DeletedAt x) eqn:Hdx; simpl; [congruence|].
    destruct (Ticket.ID x =? tid)%N eqn:Hix; [reflexivity|].
    apply N.eqb_neq in Hix. congruence.
Qed.

End Statuses.

(** On the seed ticket: user 7 reserves T1, and the statuses stay in the
    domain. *)
Lemma ReserveTicket_reserves_witness :
  (exists claims tid b,
      authenticate bearer token_claims (reserve_request "7" "1") = inr claims
      /\ bind_TicketID (reserve_request "7" "1") = Some tid
      /\ gorm.bookings (db world1) = gorm.bookings (db world0) ++ [b]
      /\ Booking.TicketID b = tid /\ Booking.UserID b = UserID claims
      /\ Booking.Status b = "reserved" /\ Booking.DeletedAt b = None
      /\ (exists t, t ∈ gorm.tickets (db world0) /\ Ticket.DeletedAt t = None
                    /\ Ticket.ID t = tid /\ Ticket.Status t = "available")
      /\ (exists t', t' ∈ gorm.tickets (db world1) /\ Ticket.DeletedAt t' = None
                     /\ Ticket.ID t' = tid)
      /\ (forall t', t' ∈ gorm.tickets (db world1) -> Ticket.DeletedAt t' = None ->
                     Ticket.ID t' = tid -> Ticket.Status t' = "reserved"))
  /\ statuses_in_domain
       (db (snd (serve bearer token_claims (MockStripeClient 0.95%float) POST_booking_reserve
                   (quiet 0 0.5%float) world0 (reserve_request "7" "1")))).
Proof.
  split.
  - apply (proj1 (ReserveTicket_reserves bearer token_claims (MockStripeClient 0.95%float))
             (quiet 0 0.5%float) world0 (reserve_request "7" "1")
             (fst (Reserve (quiet 0 0.5%float) world0 (reserve_request "7" "1"))) world1).
    + apply surjective_pairing.
    + vm_compute; reflexivity.
    + reflexivity.
  - apply (proj2 (ReserveTicket_reserves bearer token_claims (MockStripeClient 0.95%float))).
    intros r ->%list_elem_of_singleton. vm_compute. left.
Defined.

(** The status Reserve writes to the ticket is ["reserved"], not ["locked"]. *)
Lemma ReserveTicket_status_not_locked :
  code (fst (Reserve (quiet 0 0.5%float) world0 (reserve_request "7" "1"))) = http.StatusOK
  /\ Ticket.Status <$> gorm.tickets (db world0) = ["available"]
  /\ Ticket.Status <$> gorm.tickets (db world1) = ["reserved"]
  /\ "reserved" <> "locked".
Proof. vm_compute. repeat split; discriminate. Qed.

(** ** Confirm after the reservation has expired *)

Section Expired.
Variable ExtractTokenFromHeader : string -> option string.
Variable ValidateToken : string -> option Claims.
Variable paymentClient : Env -> payment.PaymentRequest -> payment.outcome.

Local Abbreviation authn := (authenticate ExtractTokenFromHeader ValidateToken).
Local Abbreviation confirm :=
  (ConfirmBooking ExtractTokenFromHeader ValidateToken paymentClient).
Local Abbreviation found := (finds_reservation ExtractTokenFromHeader ValidateToken).



End Expired.



(** ** Where the code departs from the design *)

(** *** The cleanup of an expired reservation is not one transaction (C1)

    The ticket update of the expiry branch fails: the booking is gone, the
    lock is gone, and the ticket stays ["reserved"], so that nobody can
    reserve it again. *)
Example ConfirmBooking_expired_half_done :
  let e := mkEnv (only UpdateTicket) (at_time (11 * time.Minute)) 0.5%float in
  let w' := snd (Confirm e world1 (confirm_request "7" "1")) in
  fst (Confirm e world1 (confirm_request "7" "1"))
    = error_response http.StatusGone "Reservation has expired"
  /\ Booking.DeletedAt <$> gorm.bookings (db w') = [Some (11 * time.Minute)]
  /\ Ticket.Status <$> gorm.tickets (db w') = ["reserved"]
  /\ rdb w' = ∅
  /\ fst (Reserve (quiet (12 * time.Minute) 0.5%float) w' (reserve_request "8" "1"))
     = error_response http.StatusConflict "Ticket is not available".
Proof. vm_compute. repeat split. Qed.

(** The other half: the soft delete fails and the ticket is freed while the
    booking stays [reserved]. *)
Example ConfirmBooking_expired_other_half :
  let e := mkEnv (only DeleteBooking) (at_time (11 * time.Minute)) 0.5%float in
  let w' := snd (Confirm e world1 (confirm_request "7" "1")) in
  gorm.bookings (db w') = [B1]
  /\ Ticket.Status <$> gorm.tickets (db w') = ["available"].
Proof. vm_compute. repeat split. Qed.

(** *** Cancel does not look at the status of the booking (C2)

    A second Cancel of the cancelled booking 1 is answered 200 again.  Sent
    after user 8 has reserved the freed ticket, it sets the ticket back to
    ["available"] and deletes the lock of user 8, whose booking 2 stays
    [reserved]. *)
Example CancelBooking_twice :
  gorm.bookings (db world_cancelled) = [B1_cancelled]
  /\ Ticket.Status <$> gorm.tickets (db world_cancelled) = ["available"]
  /\ fst (Cancel (quiet (2 * time.Minute) 0.5%float) world_cancelled (cancel_request "7" "1"))
     = mkResp http.StatusOK [("message", JString "Booking cancelled successfully")]
  /\ gorm.bookings (db world_rebooked) = [B1_cancelled; B2]
  /\ Ticket.Status <$> gorm.tickets (db world_rebooked) = ["reserved"]
  /\ holder (3 * time.Minute) (rdb world_rebooked) 1%N = Some 8%N
  /\ let again :=
       Cancel (quiet (3 * time.Minute) 0.5%float) world_rebooked (cancel_request "7" "1") in
     fst again = mkResp http.StatusOK [("message", JString "Booking cancelled successfully")]
     /\ gorm.bookings (db (snd again)) = [B1_cancelled; B2]
     /\ Ticket.Status <$> gorm.tickets (db (snd again)) = ["available"]
     /\ holder (3 * time.Minute) (rdb (snd again)) 1%N = None.
Proof. vm_compute. repeat split. Qed.

(** *** The payment id does not fit its column (C5)

    Reserve, then Confirm one minute later with a successful payment (the
    draw 0.5 is below the rate 0.95): the gateway's id ["pi_mock_7_60"] is
    written to the [uint] column [payment_id], the statement fails, the
    transaction is rolled back and the answer is 500.  Booking and ticket are
    as Reserve left them. *)
Example Confirm_after_Reserve :
  let e := quiet time.Minute 0.5%float in
  MockStripeClient 0.95%float e (payment.mkRequest 99.99%float "ntd" 7%N 1%N)
    = inl (payment.mkResponse
             (payment.mkIntent "pi_mock_7_60" 99.99%float "ntd" "succeeded") true "")
  /\ gorm.assign_booking ("payment_id", gorm.VString "pi_mock_7_60")
     = gorm.Err gorm.ErrInvalidTextRepresentation
  /\ Confirm e world1 (confirm_request "7" "1")
     = (error_response http.StatusInternalServerError "Failed to confirm booking", world1)
  /\ gorm.bookings (db world1) = [B1] /\ Booking.Status B1 = "reserved"
  /\ Booking.PaymentID B1 = 0%N
  /\ Ticket.Status <$> gorm.tickets (db world1) = ["reserved"]
  /\ Ticket.UserID <$> gorm.tickets (db world1) = [None].
Proof. vm_compute. repeat split. Qed.

(** *** The ticket update of Reserve is not checked (C6)

    The update of the ticket's status fails after the lock is taken and the
    booking is created: Reserve answers 200 all the same, keeps the lock and
    leaves the ticket ["available"]. *)
Example ReserveTicket_update_fails :
  let e := mkEnv (only UpdateTicket) (at_time 0) 0.5%float in
  let w' := snd (Reserve e world0 (reserve_request "7" "1")) in
  code (fst (Reserve e world0 (reserve_request "7" "1"))) = http.StatusOK
  /\ gorm.bookings (db w') = [B1]
  /\ Ticket.Status <$> gorm.tickets (db w') = ["available"]
  /\ holder time.Minute (rdb w') 1%N = Some 7%N.
Proof. vm_compute. repeat split. Qed.

(** *** The clock is read twice for one booking (C9)

    [ReservedAt] and [ExpiresAt] come from two calls of [time.Now()]: with
    2 microseconds between them the stored booking expires 10 minutes and
    2 microseconds after it was reserved.  (Both readings are whole
    microseconds, which the columns keep as they are.)  The lock's time to
    live is 10 minutes. *)
Example ReserveTicket_two_clock_readings :
  let e := mkEnv no_faults ticking 0.5%float in
  let w' := snd (Reserve e world0 (reserve_request "7" "1")) in
  exists b,
    gorm.bookings (db w') = [b]
    /\ Booking.ReservedAt b = 1 * time.Microsecond
    /\ Booking.ExpiresAt b = 3 * time.Microsecond + 10 * time.Minute
    /\ Booking.ExpiresAt b <> Booking.ReservedAt b + 10 * time.Minute
    /\ redis.ttl <$> rdb w' !! 1%N = Some (10 * time.Minute).
Proof. eexists. vm_compute. repeat split. discriminate. Qed.

(** ** What holds on the paths around these departures *)

Section Paths.
Variable ExtractTokenFromHeader : string -> option string.
Variable ValidateToken : string -> option Claims.
Variable paymentClient : Env -> payment.PaymentRequest -> payment.outcome.

Local Abbreviation authn := (authenticate ExtractTokenFromHeader ValidateToken).
Local Abbreviation reserve := (ReserveTicket ExtractTokenFromHeader ValidateToken).
Local Abbreviation confirm :=
  (ConfirmBooking ExtractTokenFromHeader ValidateToken paymentClient).
Local Abbreviation cancel := (CancelBooking ExtractTokenFromHeader ValidateToken).

Lemma authenticate_refusal q r :
  authn q = inl r -> code r = http.StatusUnauthorized.
Proof.
  unfold authenticate.
  destruct (String.eqb _ _); [intros [= <-]; reflexivity|].
  destruct (ExtractTokenFromHeader _); [|intros [= <-]; reflexivity].
  destruct (ValidateToken _); [discriminate|intros [= <-]; reflexivity].
Qed.

(** A time as the column keeps it: a whole number of microseconds, less
    than a microsecond before the time itself. *)
Lemma timestamptz_bounds (t : Z) :
  gorm.timestamptz t <= t < gorm.timestamptz t + time.Microsecond
  /\ gorm.timestamptz t mod time.Microsecond = 0.
Proof.
  unfold gorm.timestamptz, time.Microsecond. split; [|apply Z.mod_mul; lia].
  pose proof (Z.div_mod t 1000 ltac:(lia)). pose proof (Z.mod_pos_bound t 1000 ltac:(lia)).
  lia.
Qed.

(** X4: the window of a reservation.  The booking row of a successful
    Reserve holds the two clock readings of the booking literal as the
    columns keep them, in whole microseconds: [ReservedAt] is the first
    reading and [ExpiresAt] the second reading plus 10 minutes, each less
    than a microsecond early.  The response carries the expiry as the
    handler computed it, so the row expires at most a microsecond before the
    time the caller is told.  The lock was set with a time to live of 10
    minutes. *)
Lemma ReserveTicket_window e w q r w' :
  reserve e w q = (r, w') -> code r = http.StatusOK ->
  exists claims tid b,
    authn q = inr claims /\ bind_TicketID q = Some tid
    /\ gorm.bookings (db w') = gorm.bookings (db w) ++ [b]
    /\ Booking.ReservedAt b = gorm.timestamptz (now e AtReservedAt)
    /\ Booking.ExpiresAt b = gorm.timestamptz (now e AtExpiresAt + 10 * time.Minute)
    /\ ("expiresAt", JTime (now e AtExpiresAt + 10 * time.Minute)) ∈ H r
    /\ Booking.ReservedAt b <= now e AtReservedAt
        < Booking.ReservedAt b + time.Microsecond
    /\ Booking.ExpiresAt b <= now e AtExpiresAt + 10 * time.Minute
        < Booking.ExpiresAt b + time.Microsecond
    /\ rdb w' !! tid = Some (redis.mkEntry (UserID claims) (now e AtSetNX) (10 * time.Minute)).
Proof.
  intros Hrun Hcode.
  destruct (ReserveTicket_OK _ _ _ _ _ _ _ Hrun Hcode)
    as (claims & tid & t & locks & Ha & Ht & _ & _ & Hl & _ & Hw & Hr).
  eexists claims, tid, _.
  split; [exact Ha|]. split; [exact Ht|]. split; [|split; [|split; [|split; [|split; [|split]]]]].
  - subst w'. simpl. destruct (gorm.UpdatesTicket _ _ _ _) as [d'|] eqn:Hu; [|reflexivity].
    apply UpdatesTicket_Ok in Hu. destruct Hu as (f & _ & _ & _ & ->). reflexivity.
  - reflexivity.
  - reflexivity.
  - subst r. simpl. unfold time.Add. do 2 right. left.
  - simpl. apply timestamptz_bounds.
  - simpl. apply timestamptz_bounds.
  - subst w'. simpl. unfold redis.LockTicket in Hl.
    destruct (fails e SetNX); [discriminate|].
    destruct (redis.GET _ _ _); [discriminate|].
    injection Hl as <-. apply lookup_insert_eq.
Qed.

(** X5: the compensation of Reserve: when the booking cannot be created after the
    lock was taken, and the [DEL] is carried out, the answer is 500, the
    tables are untouched and the ticket has no lock. *)
Lemma ReserveTicket_create_fails e w q claims tid t locks :
  authn q = inr claims -> bind_TicketID q = Some tid ->
  gorm.FirstTicket (fails e FirstTicket) (db w) tid = gorm.Ok t ->
  Ticket.Status t = "available" ->
  redis.LockTicket (fails e SetNX) (now e AtSetNX) (rdb w) tid (UserID claims) = (locks, None) ->
  fails e CreateBooking = true ->
  fails e Del = false ->
  let w' := snd (reserve e w q) in
  fst (reserve e w q) = error_response http.StatusInternalServerError "Failed to create booking"
  /\ db w' = db w /\ rdb w' !! tid = None.
Proof.
  intros Ha Ht Hf Hs Hl Hc Hd. unfold ReserveTicket.
  rewrite Ha, Ht, Hf, Hs, Hl. unfold gorm.CreateBooking, redis.UnlockTicket.
  rewrite Hc, Hd. simpl. repeat split. apply lookup_delete_eq.
Qed.

(** X2: Cancel writes the booking row and the ticket row in one transaction:
    either it answers 200 and both updates are in the tables, or it answers
    with an error and the world is as before. *)
Lemma CancelBooking_all_or_nothing e w q :
  let r := fst (cancel e w q) in
  let w' := snd (cancel e w q) in
  (code r <> http.StatusOK /\ w' = w)
  \/ (code r = http.StatusOK
      /\ exists bookingID claims b t,
           strconv.ParseUint (Param q) 32 = Some bookingID
           /\ authn q = inr claims
           /\ gorm.FirstBooking false (db w) (booking_of bookingID (UserID claims))
              = gorm.Ok (b, t)
           /\ db w' =
              gorm.mkDB
                (gorm.update_where
                   (fun r => gorm.live Ticket.DeletedAt r && (Ticket.ID r =? Ticket.ID t)%N)
                   (fun r => Ticket.with_UserID None (Ticket.with_Status "available" r))
                   (gorm.tickets (db w)))
                (gorm.update_where
                   (fun r => gorm.live Booking.DeletedAt r && (Booking.ID r =? Booking.ID b)%N)
                   (Booking.with_Status "cancelled")
                   (gorm.bookings (db w)))
                (gorm.bookings_id_seq (db w))).
Proof.
  unfold CancelBooking.
  destruct (strconv.ParseUint _ _) as [bookingID|]; [|left; split; [discriminate|reflexivity]].
  destruct (authn q) as [r0|claims] eqn:Ha.
  { left. simpl. rewrite (authenticate_refusal _ _ Ha). split; [discriminate|reflexivity]. }
  destruct (gorm.FirstBooking _ _ _) as [[b t]|err] eqn:Hb;
    [|left; destruct err; (split; [discriminate|reflexivity])].
  destruct (gorm.UpdatesBooking _ _ _ _) as [tx1|] eqn:H1;
    [|left; split; [discriminate|reflexivity]].
  destruct (gorm.UpdatesTicket _ _ _ _) as [tx2|] eqn:H2;
    [|left; split; [discriminate|reflexivity]].
  destruct (fails e TxCommit); [left; split; [discriminate|reflexivity]|].
  destruct (redis.UnlockTicket _ _ _) as [locks err]. right. simpl.
  split; [reflexivity|]. exists bookingID, claims, b, t.
  apply UpdatesBooking_Ok in H1. destruct H1 as (f1 & _ & _ & Hf1 & ->).
  apply UpdatesTicket_Ok in H2. destruct H2 as (f2 & _ & _ & Hf2 & ->).
  injection Hf1 as <-. injection Hf2 as <-.
  pose proof (FirstBooking_Ok _ _ _ _ _ Hb) as (Hfault & _). rewrite Hfault in Hb.
  repeat split. exact Hb.
Qed.

(** X6: Cancel goes through for a booking of the caller in any status: the
    query asks for id and user only. *)
Lemma CancelBooking_any_status e w q bookingID claims b t :
  strconv.ParseUint (Param q) 32 = Some bookingID ->
  authn q = inr claims ->
  gorm.FirstBooking false (db w) (booking_of bookingID (UserID claims)) = gorm.Ok (b, t) ->
  (forall c, fails e c = false) ->
  Booking.ID b <> 0%N -> Ticket.ID t <> 0%N ->
  fst (cancel e w q) = mkResp http.StatusOK [("message", JString "Booking cancelled successfully")]
  /\ rdb (snd (cancel e w q)) !! Booking.TicketID b = None
  /\ (forall t', t' ∈ gorm.tickets (db (snd (cancel e w q))) -> Ticket.DeletedAt t' = None ->
                 Ticket.ID t' = Ticket.ID t ->
                 Ticket.Status t' = "available" /\ Ticket.UserID t' = None).
Proof.
  intros Hp Ha Hb Hok Hnb Hnt. unfold CancelBooking.
  rewrite Hp, Ha, !Hok, Hb. unfold gorm.UpdatesBooking, gorm.UpdatesTicket, redis.UnlockTicket.
  apply N.eqb_neq in Hnb, Hnt. rewrite Hnb, Hnt. simpl.
  split; [reflexivity|]. split; [apply lookup_delete_eq|].
  intros t' (x & Hx & ->)%elem_update_where.
  unfold gorm.live.
  destruct (Ticket.DeletedAt x) eqn:Hdx; simpl; [intros; congruence|].
  destruct (Ticket.ID x =? Ticket.ID t)%N eqn:Hix; [split; reflexivity|].
  intros _ Hid. apply N.eqb_neq in Hix. congruence.
Qed.

(** X3: Confirm, on every path but the expiry branch and the committed one,
    leaves the world as it was. *)
Lemma ConfirmBooking_refusals e w q :
  let r := fst (confirm e w q) in
  code r <> http.StatusOK -> code r <> http.StatusGone -> snd (confirm e w q) = w.
Proof.
  unfold ConfirmBooking.
  destruct (authn q) as [r0|claims]; [reflexivity|].
  destruct (bind_TicketID q) as [tid|]; [|reflexivity].
  destruct (bind_PaymentDetails q); [|reflexivity].
  destruct (gorm.FirstBooking _ _ _) as [[b t]|[]]; try reflexivity.
  destruct (time.After _ _).
  { destruct (redis.UnlockTicket _ _ _). simpl. congruence. }
  destruct (redis.GetTicketLockOwner _ _ _ _) as [owner [err|]]; [reflexivity|].
  destruct (negb (owner =? _)%N); [reflexivity|].
  destruct (paymentClient _ _) as [resp|err]; [|reflexivity].
  destruct (negb (payment.Success resp)); [reflexivity|].
  destruct (gorm.UpdatesBooking _ _ _ _) as [tx1|]; [|reflexivity].
  destruct (gorm.UpdatesTicket _ _ _ _) as [tx2|]; [|reflexivity].
  destruct (fails e TxCommit); [reflexivity|].
  destruct (redis.UnlockTicket _ _ _). simpl. congruence.
Qed.

End Paths.

(** *** Confirm with the mock gateway *)

Section Mock.
Variable ExtractTokenFromHeader : string -> option string.
Variable ValidateToken : string -> option Claims.
Variable MockStripeSuccessRate : float64.

(** No id of the mock gateway spells a number. *)
Lemma MockStripeClient_id e req resp :
  MockStripeClient MockStripeSuccessRate e req = inl resp ->
  strconv.decimal (payment.ID (payment.Intent resp)) = None.
Proof.
  unfold MockStripeClient, payment.CreatePaymentIntent. intros [= <-]. reflexivity.
Qed.

(** X1: with the gateway that [NewService] installs, the booking update of
    Confirm is refused by the database whenever it is reached: Confirm never
    answers 200. *)
Lemma ConfirmBooking_mock_never_OK e w q :
  code (fst (ConfirmBooking ExtractTokenFromHeader ValidateToken
               (MockStripeClient MockStripeSuccessRate) e w q)) <> http.StatusOK.
Proof.
  unfold ConfirmBooking.
  destruct (authenticate _ _ q) as [r0|claims] eqn:Ha.
  { simpl. rewrite (authenticate_refusal _ _ _ _ Ha). discriminate. }
  destruct (bind_TicketID q) as [tid|]; [|discriminate].
  destruct (bind_PaymentDetails q); [|discriminate].
  destruct (gorm.FirstBooking _ _ _) as [[b t]|[]]; try discriminate.
  destruct (time.After _ _).
  { destruct (redis.UnlockTicket _ _ _). discriminate. }
  destruct (redis.GetTicketLockOwner _ _ _ _) as [owner [err|]]; [discriminate|].
  destruct (negb (owner =? _)%N); [discriminate|].
  destruct (MockStripeClient _ _ _) as [resp|err] eqn:Hpay; [|discriminate].
  destruct (negb (payment.Success resp)); [discriminate|].
  apply MockStripeClient_id in Hpay.
  unfold gorm.UpdatesBooking.
  destruct (_ || _); [discriminate|].
  destruct (Booking.ID b =? 0)%N; [discriminate|].
  cbn [gorm.assignments gorm.assign_booking String.eqb Ascii.eqb Bool.eqb].
  rewrite Hpay. discriminate.
Qed.

End Mock.

(** *** The same paths on the seed ticket *)

Lemma ReserveTicket_window_witness :
  let e := mkEnv no_faults between_ticks 0.5%float in
  exists claims tid b,
    authenticate bearer token_claims (reserve_request "7" "1") = inr claims
    /\ bind_TicketID (reserve_request "7" "1") = Some tid
    /\ gorm.bookings (db (snd (Reserve e world0 (reserve_request "7" "1"))))
       = gorm.bookings (db world0) ++ [b]
    /\ Booking.ReservedAt b = gorm.timestamptz (now e AtReservedAt)
    /\ Booking.ExpiresAt b = gorm.timestamptz (now e AtExpiresAt + 10 * time.Minute)
    /\ ("expiresAt", JTime (now e AtExpiresAt + 10 * time.Minute))
       ∈ H (fst (Reserve e world0 (reserve_request "7" "1")))
    /\ Booking.ReservedAt b <= now e AtReservedAt
        < Booking.ReservedAt b + time.Microsecond
    /\ Booking.ExpiresAt b <= now e AtExpiresAt + 10 * time.Minute
        < Booking.ExpiresAt b + time.Microsecond
    /\ rdb (snd (Reserve e world0 (reserve_request "7" "1"))) !! tid
       = Some (redis.mkEntry (UserID claims) (now e AtSetNX) (10 * time.Minute)).
Proof.
  apply (ReserveTicket_window bearer token_claims
           (mkEnv no_faults between_ticks 0.5%float) world0 (reserve_request "7" "1")
           (fst (Reserve (mkEnv no_faults between_ticks 0.5%float) world0 (reserve_request "7" "1")))).
  - apply surjective_pairing.
  - vm_compute; reflexivity.
Defined.

Lemma ReserveTicket_create_fails_witness :
  let e := mkEnv (only CreateBooking) (at_time 0) 0.5%float in
  let w' := snd (Reserve e world0 (reserve_request "7" "1")) in
  fst (Reserve e world0 (reserve_request "7" "1"))
    = error_response http.StatusInternalServerError "Failed to create booking"
  /\ db w' = db world0 /\ rdb w' !! 1%N = None.
Proof.
  apply (ReserveTicket_create_fails bearer token_claims
           (mkEnv (only CreateBooking) (at_time 0) 0.5%float) world0 (reserve_request "7" "1")
           (mkClaims 7%N) 1%N T1 (rdb world1)).
  - vm_compute; reflexivity.
  - vm_compute; reflexivity.
  - vm_compute; reflexivity.
  - reflexivity.
  - vm_compute; reflexivity.
  - reflexivity.
  - reflexivity.
Defined.

Lemma ConfirmBooking_refusals_witness :
  snd (Confirm (quiet time.Minute 0.99%float) world1 (confirm_request "7" "1")) = world1.
Proof.
  apply (ConfirmBooking_refusals bearer token_claims (MockStripeClient 0.95%float)
           (quiet time.Minute 0.99%float) world1 (confirm_request "7" "1")).
  - vm_compute; congruence.
  - vm_compute; congruence.
Defined.

(** Booking 1 is already cancelled and is cancelled again. *)
Lemma CancelBooking_any_status_witness :
  let r := Cancel (quiet (2 * time.Minute) 0.5%float) world_cancelled (cancel_request "7" "1") in
  fst r = mkResp http.StatusOK [("message", JString "Booking cancelled successfully")]
  /\ rdb (snd r) !! Booking.TicketID B1_cancelled = None
  /\ (forall t', t' ∈ gorm.tickets (db (snd r)) -> Ticket.DeletedAt t' = None ->
                 Ticket.ID t' = Ticket.ID T1 ->
                 Ticket.Status t' = "available" /\ Ticket.UserID t' = None).
Proof.
  apply (CancelBooking_any_status bearer token_claims
           (quiet (2 * time.Minute) 0.5%float) world_cancelled (cancel_request "7" "1")
           1%N (mkClaims 7%N) B1_cancelled T1).
  - vm_compute; reflexivity.
  - vm_compute; reflexivity.
  - vm_compute; reflexivity.
  - reflexivity.
  - vm_compute; congruence.
  - vm_compute; congruence.
Defined.

(** ** The Redis client on its own *)

Section Locks.
Import redis.

Lemma GET_insert t (rdb : gmap N Entry) k e :
  GET t (<[k := e]> rdb) k = if alive t e then Some e else None.
Proof. unfold GET. rewrite lookup_insert_eq. reflexivity. Qed.

Lemma alive_fresh t v : alive t (mkEntry v t (10 * time.Minute)) = true.
Proof. unfold alive; simpl. apply Z.ltb_lt. unfold time.Minute, time.Second. lia. Qed.



(** X9: [UnlockTicket] asks for no owner: whoever holds the lock, afterwards
    the ticket has none, any user can lock it at any time, the other tickets
    are as before, and a second [UnlockTicket] changes nothing and is no
    error. *)
Theorem UnlockTicket_frees (rdb : gmap N Entry) ticketID :
  let rdb' := fst (UnlockTicket false rdb ticketID) in
  snd (UnlockTicket false rdb ticketID) = None
  /\ (forall t, holder t rdb' ticketID = None)
  /\ (forall t userID,
        snd (LockTicket false t rdb' ticketID userID) = None
        /\ holder t (fst (LockTicket false t rdb' ticketID userID)) ticketID = Some userID)
  /\ (forall k, k <> ticketID -> rdb' !! k = rdb !! k)
  /\ UnlockTicket false rdb' ticketID = (rdb', None).
Proof.
  unfold UnlockTicket; simpl.
  assert (Hget : forall t, GET t (delete ticketID rdb) ticketID = None).
  { intros t. unfold GET. rewrite lookup_delete_eq. reflexivity. }
  split; [reflexivity|]. split; [|split; [|split]].
  - intros t. unfold holder. rewrite Hget. reflexivity.
  - intros t userID. unfold LockTicket, holder. rewrite Hget. simpl.
    rewrite GET_insert, alive_fresh. split; reflexivity.
  - intros k Hk. apply lookup_delete_ne. congruence.
  - f_equal. apply delete_delete_eq.
Qed.


End Locks.

Section WaitingQueue.
Import redis.

Lemma queue_store (qs : gmap N (list uint)) ev l : queue (store_queue qs ev l) ev = l.
Proof.
  unfold queue, store_queue. destruct l.
  - rewrite lookup_delete_eq. reflexivity.
  - rewrite lookup_insert_eq. reflexivity.
Qed.

Lemma store_queue_other (qs : gmap N (list uint)) ev l k :
  k <> ev -> queue (store_queue qs ev l) k = queue qs k.
Proof.
  intros Hk. unfold queue, store_queue. destruct l.
  - rewrite lookup_delete_ne by congruence. reflexivity.
  - rewrite lookup_insert_ne by congruence. reflexivity.
Qed.

Lemma join_all_cons (qs : gmap N (list uint)) ev u us :
  join_all qs ev (u :: us) = join_all (store_queue qs ev (u :: queue qs ev)) ev us.
Proof. reflexivity. Qed.

Lemma queue_join_all us : forall (qs : gmap N (list uint)) ev,
  queue (join_all qs ev us) ev = rev us ++ queue qs ev.
Proof.
  induction us as [|u us IH]; intros qs ev; [reflexivity|].
  rewrite join_all_cons, IH, queue_store. simpl. rewrite <- app_assoc. reflexivity.
Qed.

Lemma queue_join_all_other us : forall (qs : gmap N (list uint)) ev k,
  k <> ev -> queue (join_all qs ev us) k = queue qs k.
Proof.
  induction us as [|u us IH]; intros qs ev k Hk; [reflexivity|].
  rewrite join_all_cons, IH by assumption. apply store_queue_other, Hk.
Qed.

(** Serving a whole queue: the users come out oldest first. *)
Lemma process_whole r : forall (qs : gmap N (list uint)) ev,
  queue qs ev = rev r ->
  fst (process (length r) qs ev) = served <$> r
  /\ queue (snd (process (length r) qs ev)) ev = []
  /\ (forall k, k <> ev -> queue (snd (process (length r) qs ev)) k = queue qs k).
Proof.
  induction r as [|x r IH]; intros qs ev Hq; [simpl; auto|].
  simpl length. cbn [process]. unfold ProcessWaitingQueue.
  rewrite Hq, rev_involutive.
  specialize (IH (store_queue qs ev (rev r)) ev (queue_store _ _ _)).
  destruct (process (length r) (store_queue qs ev (rev r)) ev) as [rs qs2].
  simpl in *. destruct IH as (-> & Hempty & Hother). repeat split; [assumption|].
  intros k Hk. rewrite Hother by assumption. apply store_queue_other, Hk.
Qed.

(** X11: the waiting queue is first in, first out.  When the users [us] join
    the queue of an event and the queue is then served until it is empty,
    those who were waiting before come out first, oldest first, then [us] in
    the order they joined; the queue is empty afterwards, the next
    [ProcessWaitingQueue] answers [redis.Nil], and the queues of the other
    events are as they were. *)
Theorem waiting_queue_fifo (qs : gmap N (list uint)) eventID us :
  let waiting := rev (queue qs eventID) in
  let run := process (length (waiting ++ us)) (join_all qs eventID us) eventID in
  fst run = served <$> (waiting ++ us)
  /\ queue (snd run) eventID = []
  /\ ProcessWaitingQueue false (snd run) eventID = (snd run, (0%N, Some Nil))
  /\ (forall k, k <> eventID -> queue (snd run) k = queue qs k).
Proof.
  intros waiting run.
  assert (Hq : queue (join_all qs eventID us) eventID = rev (waiting ++ us)).
  { rewrite queue_join_all. unfold waiting. rewrite rev_app_distr, rev_involutive. reflexivity. }
  destruct (process_whole _ _ _ Hq) as (Hrun & Hempty & Hother). fold run in Hrun, Hempty, Hother.
  repeat split; try assumption.
  - unfold ProcessWaitingQueue. rewrite Hempty. reflexivity.
  - intros k Hk. rewrite Hother by assumption. apply queue_join_all_other, Hk.
Qed.

Lemma LPOS_app l1 u l2 : u ∉ l1 -> LPOS u (l1 ++ u :: l2) = Some (length l1).
Proof.
  induction l1 as [|y l1 IH]; intros Hn; simpl.
  - rewrite N.eqb_refl. reflexivity.
  - apply not_elem_of_cons in Hn. destruct Hn as [Hy Hn].
    destruct (y =? u)%N eqn:Hyu; [apply N.eqb_eq in Hyu; congruence|].
    rewrite IH by assumption. reflexivity.
Qed.

Lemma LPOS_None u l : u ∉ l -> LPOS u l = None.
Proof.
  induction l as [|y l IH]; intros Hn; [reflexivity|]. simpl.
  apply not_elem_of_cons in Hn. destruct Hn as [Hy Hn].
  destruct (y =? u)%N eqn:Hyu; [apply N.eqb_eq in Hyu; congruence|].
  rewrite IH by assumption. reflexivity.
Qed.

Lemma process_app r1 : forall r2 (qs : gmap N (list uint)) ev,
  queue qs ev = rev (r1 ++ r2) ->
  fst (process (length r1) qs ev) = served <$> r1.
Proof.
  induction r1 as [|x r1 IH]; intros r2 qs ev Hq; [reflexivity|].
  simpl length. cbn [process]. unfold ProcessWaitingQueue.
  rewrite Hq, rev_involutive. simpl.
  specialize (IH r2 (store_queue qs ev (rev (r1 ++ r2))) ev (queue_store _ _ _)).
  destruct (process (length r1) (store_queue qs ev (rev (r1 ++ r2))) ev) as [rs qs2].
  simpl in *. rewrite IH. reflexivity.
Qed.

(** X12: the position [GetWaitingQueuePosition] reports counts the users who
    joined after the user, not those ahead of them: for a user who waits with
    [later] users having joined since and [earlier] users still waiting from
    before, the position is the number of the later ones, while
    [ProcessWaitingQueue] serves all the earlier ones first, oldest first, and
    the user right after them.  A user who is not in the queue gets -1 and
    [redis.Nil]. *)
Theorem waiting_queue_position (qs : gmap N (list uint)) eventID userID :
  (forall later earlier,
      queue qs eventID = later ++ userID :: earlier ->
      userID ∉ later ->
      GetWaitingQueuePosition false qs eventID userID = (Z.of_nat (length later), None)
      /\ fst (process (S (length earlier)) qs eventID)
         = served <$> (rev earlier ++ [userID]))
  /\ (userID ∉ queue qs eventID ->
      GetWaitingQueuePosition false qs eventID userID = (-1, Some Nil)).
Proof.
  split.
  - intros later earlier Hq Hn. split.
    + unfold GetWaitingQueuePosition. rewrite Hq, LPOS_app by assumption. reflexivity.
    + replace (S (length earlier)) with (length (rev earlier ++ [userID]))
        by (rewrite length_app, length_rev; simpl; lia).
      apply (process_app _ (rev later)).
      rewrite Hq, !rev_app_distr, !rev_involutive. reflexivity.
  - intros Hn. unfold GetWaitingQueuePosition. rewrite LPOS_None by assumption. reflexivity.
Qed.

End WaitingQueue.

(** ** More on Reserve, Confirm and the listing *)

Section Handlers.
Variable ExtractTokenFromHeader : string -> option string.
Variable ValidateToken : string -> option Claims.
Variable paymentClient : Env -> payment.PaymentRequest -> payment.outcome.

Local Abbreviation authn := (authenticate ExtractTokenFromHeader ValidateToken).
Local Abbreviation reserve := (ReserveTicket ExtractTokenFromHeader ValidateToken).
Local Abbreviation confirm :=
  (ConfirmBooking ExtractTokenFromHeader ValidateToken paymentClient).
Local Abbreviation list_bookings := (GetUserBookings ExtractTokenFromHeader ValidateToken).
Local Abbreviation found := (finds_reservation ExtractTokenFromHeader ValidateToken).

(** X13: a Reserve that is refused, for whatever reason, has written nothing
    to the tickets and bookings. *)
Theorem ReserveTicket_refused_writes_nothing e w q :
  code (fst (reserve e w q)) <> http.StatusOK -> db (snd (reserve e w q)) = db w.
Proof.
  unfold ReserveTicket.
  destruct (authn q); [reflexivity|].
  destruct (bind_TicketID q); [|reflexivity].
  destruct (gorm.FirstTicket _ _ _) as [t|[]]; try reflexivity.
  destruct (negb _); [reflexivity|].
  destruct (redis.LockTicket _ _ _ _ _) as [locks [err|]]; [reflexivity|].
  destruct (gorm.CreateBooking _ _ _) as [[db1 b]|err].
  - simpl. congruence.
  - destruct (redis.UnlockTicket _ _ _). reflexivity.
Qed.

(** Under a live lock on the ticket Reserve is refused and the world stays
    as it is. *)
Lemma ReserveTicket_locked e w q tid :
  bind_TicketID q = Some tid ->
  holder (now e AtSetNX) (rdb w) tid <> None ->
  code (fst (reserve e w q)) <> http.StatusOK /\ snd (reserve e w q) = w.
Proof.
  intros Ht Hh. unfold ReserveTicket.
  destruct (authn q) as [r0|claims] eqn:Ha.
  { simpl. rewrite (authenticate_refusal _ _ _ _ Ha). split; [discriminate|reflexivity]. }
  rewrite Ht.
  destruct (gorm.FirstTicket _ _ _) as [t|[]]; try (split; [discriminate|reflexivity]).
  destruct (negb _); [split; [discriminate|reflexivity]|].
  unfold redis.LockTicket. destruct (fails e SetNX).
  { simpl. split; [discriminate|]. destruct w; reflexivity. }
  unfold holder in Hh. destruct (redis.GET _ _ _); [|simpl in Hh; congruence].
  simpl. split; [discriminate|]. destruct w; reflexivity.
Qed.

Lemma ReserveTicket_other_lock e w q tid :
  bind_TicketID q <> Some tid ->
  rdb (snd (reserve e w q)) !! tid = rdb w !! tid.
Proof.
  intros Hne. unfold ReserveTicket.
  destruct (authn q); [reflexivity|].
  destruct (bind_TicketID q) as [tid'|]; [|reflexivity].
  assert (Hd : tid' <> tid) by congruence.
  destruct (gorm.FirstTicket _ _ _) as [t|[]]; try reflexivity.
  destruct (negb _); [reflexivity|].
  unfold redis.LockTicket. destruct (fails e SetNX); [reflexivity|].
  destruct (redis.GET _ _ _); [reflexivity|].
  destruct (gorm.CreateBooking _ _ _) as [[db1 b]|err].
  - simpl. apply lookup_insert_ne. exact Hd.
  - unfold redis.UnlockTicket. destruct (fails e Del); simpl.
    + apply lookup_insert_ne. exact Hd.
    + rewrite lookup_delete_ne by exact Hd. apply lookup_insert_ne. exact Hd.
Qed.

(** Reserve requests served in turn leave a lock in place as long as those
    of them that ask for its ticket come before it runs out. *)
Lemma in_turn_keeps_lock tid entry l w :
  rdb w !! tid = Some entry ->
  (forall e q, (e, q) ∈ l -> bind_TicketID q = Some tid ->
               now e AtSetNX < redis.set_at entry + redis.ttl entry) ->
  rdb (in_turn reserve l w) !! tid = Some entry.
Proof.
  revert w. induction l as [|[e q] l IH]; intros w Hw Hl; [exact Hw|].
  cbn [in_turn]. apply IH.
  - destruct (decide (bind_TicketID q = Some tid)) as [Ht|Ht].
    + destruct (ReserveTicket_locked e w q tid Ht) as [_ ->]; [|exact Hw].
      unfold holder, redis.GET. rewrite Hw. unfold redis.alive.
      pose proof (Hl e q ltac:(left) Ht) as Hlt. apply Z.ltb_lt in Hlt.
      rewrite Hlt. discriminate.
    + rewrite (ReserveTicket_other_lock e w q tid Ht). exact Hw.
  - intros e' q' Hin. apply Hl. right. exact Hin.
Qed.

(** X14: a successful Reserve keeps the ticket against other reservations.
    As long as only Reserve requests are served after it (for any tickets,
    by any callers, whatever store calls fail in them), every Reserve of the
    same ticket whose [SETNX] runs less than ten minutes after the first
    one's is refused and changes nothing.  (A Confirm or a Cancel served in
    between may release the lock; of such runs nothing is said.) *)
Theorem ReserveTicket_excludes e1 w q1 r1 w1 :
  reserve e1 w q1 = (r1, w1) ->
  code r1 = http.StatusOK ->
  forall between e2 q2,
    (forall e q, (e, q) ∈ between -> bind_TicketID q = bind_TicketID q1 ->
                 now e AtSetNX < now e1 AtSetNX + 10 * time.Minute) ->
    bind_TicketID q2 = bind_TicketID q1 ->
    now e2 AtSetNX < now e1 AtSetNX + 10 * time.Minute ->
    let w2 := in_turn reserve between w1 in
    code (fst (reserve e2 w2 q2)) <> http.StatusOK /\ snd (reserve e2 w2 q2) = w2.
Proof.
  intros Hrun Hcode between e2 q2 Hall Hsame Hlt w2.
  destruct (ReserveTicket_OK _ _ _ _ _ _ _ Hrun Hcode)
    as (claims & tid & t & locks & _ & Ht & _ & _ & Hl & _ & Hw & _).
  rewrite Ht in Hsame, Hall.
  assert (Hlock : rdb w1 !! tid
                  = Some (redis.mkEntry (UserID claims) (now e1 AtSetNX) (10 * time.Minute))).
  { subst w1. simpl. unfold redis.LockTicket in Hl.
    destruct (fails e1 SetNX); [discriminate|].
    destruct (redis.GET _ _ _); [discriminate|]. injection Hl as <-.
    apply lookup_insert_eq. }
  pose proof (in_turn_keeps_lock tid _ between w1 Hlock Hall) as Hkept.
  apply (ReserveTicket_locked _ _ _ tid Hsame).
  unfold holder, redis.GET. fold w2 in Hkept. rewrite Hkept. unfold redis.alive; simpl.
  apply Z.ltb_lt in Hlt. rewrite Hlt. discriminate.
Qed.

(** X16: a caller who asks for their own bookings gets all of them: when the
    query is carried out, the response carries exactly the live booking rows
    of that user, and its count is their number. *)
Theorem GetUserBookings_complete e w q claims :
  authn q = inr claims ->
  strconv.ParseUint (Param q) 32 = Some (UserID claims) ->
  fails e FindBookings = false ->
  (forall b, b ∈ revealed (list_bookings e w q) <->
             b ∈ gorm.bookings (db w) /\ Booking.DeletedAt b = None
             /\ Booking.UserID b = UserID claims)
  /\ code (list_bookings e w q) = http.StatusOK
  /\ ("count", JInt (Z.of_nat (length (revealed (list_bookings e w q)))))
       ∈ H (list_bookings e w q).
Proof.
  intros Ha Hp Hf. unfold GetUserBookings, gorm.FindBookings.
  rewrite Hp, Ha, N.eqb_refl, Hf. simpl. unfold revealed; simpl. rewrite app_nil_r.
  split; [|split; [reflexivity|]].
  - intros b. rewrite select_bookings_elem, N.eqb_eq. reflexivity.
  - right. left.
Qed.

End Handlers.

(** ** The primary keys of the bookings *)

Section Keys.
Import gorm.

Lemma assign_booking_keeps a f :
  assign_booking a = Ok f ->
  forall r, Booking.ID (f r) = Booking.ID r /\ Booking.UserID (f r) = Booking.UserID r.
Proof.
  destruct a as [col v]. unfold assign_booking.
  destruct (String.eqb col "status").
  { destruct v; try discriminate; intros [= <-] r; split; reflexivity. }
  destruct (String.eqb col "payment_id"); [|discriminate].
  destruct v as [s|n|]; [destruct (strconv.decimal s)| |]; try discriminate;
    intros [= <-] r; split; reflexivity.
Qed.

Lemma assignments_booking_keep values : forall f,
  assignments assign_booking values = Ok f ->
  forall r, Booking.ID (f r) = Booking.ID r /\ Booking.UserID (f r) = Booking.UserID r.
Proof.
  induction values as [|a values IH]; intros f; simpl.
  - intros [= <-] r. split; reflexivity.
  - destruct (assign_booking a) as [g|] eqn:Ha; [|discriminate].
    destruct (assignments assign_booking values) as [h|]; [|discriminate].
    intros [= <-] r.
    destruct (IH h eq_refl (g r)) as [-> ->]. apply (assign_booking_keeps _ _ Ha).
Qed.

Lemma fmap_ID_update_where hit f (l : list Booking.t) :
  (forall r, Booking.ID (f r) = Booking.ID r) ->
  Booking.ID <$> update_where hit f l = Booking.ID <$> l.
Proof.
  intros Hf. unfold update_where. rewrite <- list_fmap_compose.
  apply list_fmap_ext. intros i r _. simpl. destruct (hit r); [apply Hf | reflexivity].
Qed.

Lemma keys_ok_update d ts hit f :
  (forall r, Booking.ID (f r) = Booking.ID r) ->
  keys_ok d -> keys_ok (mkDB ts (update_where hit f (bookings d)) (bookings_id_seq d)).
Proof.
  intros Hf [Hnd Hb]. split; simpl.
  - rewrite fmap_ID_update_where by assumption. exact Hnd.
  - intros b (x & Hx & ->)%elem_update_where.
    destruct (hit x); [rewrite Hf|]; apply Hb, Hx.
Qed.

Lemma keys_ok_same d d' :
  bookings d' = bookings d -> bookings_id_seq d' = bookings_id_seq d ->
  keys_ok d -> keys_ok d'.
Proof. unfold keys_ok. intros -> ->. auto. Qed.

Lemma UpdatesTicket_bookings fault d id values :
  bookings (ignoring d (UpdatesTicket fault d id values)) = bookings d
  /\ bookings_id_seq (ignoring d (UpdatesTicket fault d id values)) = bookings_id_seq d.
Proof.
  destruct (UpdatesTicket fault d id values) as [d'|] eqn:Hu; [|split; reflexivity].
  apply UpdatesTicket_Ok in Hu. destruct Hu as (f & _ & _ & _ & ->). split; reflexivity.
Qed.

Lemma keys_ok_append d ts b :
  keys_ok d ->
  keys_ok (mkDB ts (bookings d ++ [Booking.with_ID (bookings_id_seq d + 1)%N b])
             (bookings_id_seq d + 1)%N).
Proof.
  intros [Hnd Hb]. split; simpl.
  - rewrite fmap_app. simpl. apply NoDup_app. split; [exact Hnd|]. split.
    + intros i (x & Hi & Hx)%list_elem_of_fmap ->%list_elem_of_singleton.
      apply Hb in Hx. lia.
    + apply NoDup_singleton.
  - intros x [Hx | ->%list_elem_of_singleton]%elem_of_app.
    + apply Hb in Hx. lia.
    + simpl. lia.
Qed.

(** With unique keys, the row of a given id is one row. *)
Lemma keys_ok_same_row d x y :
  keys_ok d -> x ∈ bookings d -> y ∈ bookings d -> Booking.ID x = Booking.ID y -> x = y.
Proof.
  intros [Hnd _]. revert Hnd. generalize (bookings d) as l.
  induction l as [|z l IH]; intros Hnd Hx Hy Hid; [inversion Hx|].
  simpl in Hnd. apply NoDup_cons in Hnd. destruct Hnd as [Hz Hnd].
  apply elem_of_cons in Hx, Hy.
  destruct Hx as [-> | Hx], Hy as [-> | Hy]; [reflexivity| | |auto].
  - exfalso. apply Hz. rewrite Hid. apply list_elem_of_fmap. eauto.
  - exfalso. apply Hz. rewrite <- Hid. apply list_elem_of_fmap. eauto.
Qed.

End Keys.

Section KeysOfRoutes.
Variable ExtractTokenFromHeader : string -> option string.
Variable ValidateToken : string -> option Claims.
Variable paymentClient : Env -> payment.PaymentRequest -> payment.outcome.

Local Abbreviation authn := (authenticate ExtractTokenFromHeader ValidateToken).
Local Abbreviation reserve := (ReserveTicket ExtractTokenFromHeader ValidateToken).
Local Abbreviation confirm :=
  (ConfirmBooking ExtractTokenFromHeader ValidateToken paymentClient).
Local Abbreviation cancel := (CancelBooking ExtractTokenFromHeader ValidateToken).
Local Abbreviation route := (serve ExtractTokenFromHeader ValidateToken paymentClient).
Local Abbreviation bookings_step := (bookings_step ExtractTokenFromHeader ValidateToken).
Local Abbreviation step_none := (step_none ExtractTokenFromHeader ValidateToken).
Local Abbreviation step_append := (step_append ExtractTokenFromHeader ValidateToken).
Local Abbreviation step_rewrite := (step_rewrite ExtractTokenFromHeader ValidateToken).

Lemma ReserveTicket_step e w q : bookings_step w (snd (reserve e w q)) q.
Proof.
  unfold ReserveTicket.
  destruct (authn q) as [r0|claims] eqn:Ha; [apply step_none; reflexivity|].
  destruct (bind_TicketID q); [|apply step_none; reflexivity].
  destruct (gorm.FirstTicket _ _ _) as [t|[]]; try (apply step_none; reflexivity).
  destruct (negb _); [apply step_none; reflexivity|].
  destruct (redis.LockTicket _ _ _ _ _) as [locks [err|]]; [apply step_none; reflexivity|].
  unfold gorm.CreateBooking. destruct (fails e CreateBooking).
  { destruct (redis.UnlockTicket _ _ _). apply step_none; reflexivity. }
  simpl.
  match goal with
  | |- context [gorm.UpdatesTicket ?f ?d ?i ?v] =>
      destruct (UpdatesTicket_bookings f d i v) as [Hb Hs]
  end.
  refine (step_append _ _ _ claims
            (Booking.mk 0%N None _ (UserID claims) "reserved" _ _ 0%N) Ha eq_refl _ _);
    simpl; [rewrite Hb | rewrite Hs]; reflexivity.
Qed.

Lemma ConfirmBooking_step e w q : bookings_step w (snd (confirm e w q)) q.
Proof.
  unfold ConfirmBooking.
  destruct (authn q) as [r0|claims] eqn:Ha; [apply step_none; reflexivity|].
  destruct (bind_TicketID q) as [tid|]; [|apply step_none; reflexivity].
  destruct (bind_PaymentDetails q); [|apply step_none; reflexivity].
  destruct (gorm.FirstBooking _ _ _) as [[b t]|err] eqn:Hb;
    [|destruct err; apply step_none; reflexivity].
  apply FirstBooking_Ok in Hb. destruct Hb as (_ & Hin & _ & Hc & _).
  apply reservation_of_true in Hc. destruct Hc as (_ & Hu & _).
  destruct (time.After _ _).
  { destruct (redis.UnlockTicket _ _ _). simpl.
    match goal with
    | |- context [gorm.UpdatesTicket ?f ?d ?i ?v] =>
        destruct (UpdatesTicket_bookings f d i v) as [Hb Hs]
    end.
    unfold gorm.DeleteBooking in *.
    destruct (fails e DeleteBooking); [apply step_none; simpl; assumption|].
    destruct (Booking.ID b =? 0)%N; [apply step_none; simpl; assumption|].
    simpl in *.
    apply (step_rewrite _ _ _ claims b
             (Booking.with_DeletedAt (Some (gorm.timestamptz (now e AtDelete)))));
      try assumption; try reflexivity. intros r. split; reflexivity. }
  destruct (redis.GetTicketLockOwner _ _ _ _) as [owner [err|]]; [apply step_none; reflexivity|].
  destruct (negb (owner =? _)%N); [apply step_none; reflexivity|].
  destruct (paymentClient _ _) as [resp|err]; [|apply step_none; reflexivity].
  destruct (negb (payment.Success resp)); [apply step_none; reflexivity|].
  destruct (gorm.UpdatesBooking _ _ _ _) as [tx1|] eqn:H1; [|apply step_none; reflexivity].
  destruct (gorm.UpdatesTicket _ _ _ _) as [tx2|] eqn:H2; [|apply step_none; reflexivity].
  destruct (fails e TxCommit); [apply step_none; reflexivity|].
  destruct (redis.UnlockTicket _ _ _). simpl.
  apply UpdatesBooking_Ok in H1. destruct H1 as (f1 & _ & _ & Hf1 & ->).
  apply UpdatesTicket_Ok in H2. destruct H2 as (f2 & _ & _ & Hf2 & ->).
  apply (step_rewrite _ _ _ claims b f1); try assumption; try reflexivity.
  exact (assignments_booking_keep _ _ Hf1).
Qed.

Lemma CancelBooking_step e w q : bookings_step w (snd (cancel e w q)) q.
Proof.
  unfold CancelBooking.
  destruct (strconv.ParseUint _ _) as [bid|]; [|apply step_none; reflexivity].
  destruct (authn q) as [r0|claims] eqn:Ha; [apply step_none; reflexivity|].
  destruct (gorm.FirstBooking _ _ _) as [[b t]|err] eqn:Hb;
    [|destruct err; apply step_none; reflexivity].
  apply FirstBooking_Ok in Hb. destruct Hb as (_ & Hin & _ & Hc & _).
  apply booking_of_true in Hc. destruct Hc as (_ & Hu).
  destruct (gorm.UpdatesBooking _ _ _ _) as [tx1|] eqn:H1; [|apply step_none; reflexivity].
  destruct (gorm.UpdatesTicket _ _ _ _) as [tx2|] eqn:H2; [|apply step_none; reflexivity].
  destruct (fails e TxCommit); [apply step_none; reflexivity|].
  destruct (redis.UnlockTicket _ _ _). simpl.
  apply UpdatesBooking_Ok in H1. destruct H1 as (f1 & _ & _ & Hf1 & ->).
  apply UpdatesTicket_Ok in H2. destruct H2 as (f2 & _ & _ & Hf2 & ->).
  apply (step_rewrite _ _ _ claims b f1); try assumption; try reflexivity.
  exact (assignments_booking_keep _ _ Hf1).
Qed.

Lemma serve_step r e w q : bookings_step w (snd (route r e w q)) q.
Proof.
  destruct r; simpl;
    auto using ReserveTicket_step, ConfirmBooking_step, CancelBooking_step;
    apply step_none; reflexivity.
Qed.

(** X17: every route keeps the primary keys of the bookings in order: ids
    stay unique and within the sequence, whatever the request and whichever
    store calls fail. *)
Theorem serve_keeps_keys r e w q :
  keys_ok (db w) -> keys_ok (db (snd (route r e w q))).
Proof.
  intros Hk. destruct (serve_step r e w q) as [Hb Hs | claims b _ _ Hb Hs | claims b f _ _ _ Hf Hb Hs].
  - exact (keys_ok_same _ _ Hb Hs Hk).
  - pose proof (keys_ok_append (db w) [] b Hk) as Hk'.
    unfold keys_ok in *. rewrite Hb, Hs. exact Hk'.
  - pose proof (keys_ok_update (db w) []
                  (fun r => gorm.live Booking.DeletedAt r && (Booking.ID r =? Booking.ID b)%N)
                  f (fun r => proj1 (Hf r)) Hk) as Hk'.
    unfold keys_ok in *. rewrite Hb, Hs. exact Hk'.
Qed.

(** X18: no route removes a booking row, and the only rows a request can
    change are the caller's own: with keys in order, a row that is no longer
    in the table as it was belongs to the authenticated user of the request,
    and a row of the same id and user has taken its place. *)
Theorem serve_touches_own_rows r e w q :
  keys_ok (db w) ->
  (length (gorm.bookings (db w)) <= length (gorm.bookings (db (snd (route r e w q)))))%nat
  /\ forall b,
       b ∈ gorm.bookings (db w) ->
       b ∉ gorm.bookings (db (snd (route r e w q))) ->
       exists claims b',
         authn q = inr claims /\ Booking.UserID b = UserID claims
         /\ b' ∈ gorm.bookings (db (snd (route r e w q)))
         /\ Booking.ID b' = Booking.ID b /\ Booking.UserID b' = Booking.UserID b.
Proof.
  intros Hk. destruct (serve_step r e w q) as [Hb Hs | claims b0 _ _ Hb Hs | claims b0 f Ha Hin Hu Hf Hb Hs];
    rewrite Hb.
  - split; [reflexivity|]. intros b Hb1 Hb2. contradiction.
  - split; [rewrite length_app; lia|]. intros b Hb1 Hb2. exfalso. apply Hb2, elem_of_app. auto.
  - split; [unfold gorm.update_where; rewrite length_map; reflexivity|].
    intros b Hb1 Hb2.
    destruct (gorm.live Booking.DeletedAt b && (Booking.ID b =? Booking.ID b0)%N) eqn:Hhit.
    + apply andb_true_iff in Hhit. destruct Hhit as [Hlive Hid%N.eqb_eq].
      assert (Heq : b = b0) by (eapply keys_ok_same_row; eassumption). subst b.
      exists claims, (f b0). repeat split; try assumption; try apply Hf.
      apply elem_update_where. exists b0. split; [assumption|].
      unfold gorm.live in *. destruct (Booking.DeletedAt b0); [discriminate|].
      rewrite N.eqb_refl. reflexivity.
    + exfalso. apply Hb2, elem_update_where. exists b. rewrite Hhit. auto.
Qed.

End KeysOfRoutes.

(** ** Reserve, Cancel, Reserve again *)

Section RoundTrip.
Variable ExtractTokenFromHeader : string -> option string.
Variable ValidateToken : string -> option Claims.

Local Abbreviation authn := (authenticate ExtractTokenFromHeader ValidateToken).
Local Abbreviation reserve := (ReserveTicket ExtractTokenFromHeader ValidateToken).
Local Abbreviation cancel := (CancelBooking ExtractTokenFromHeader ValidateToken).

Local Abbreviation hit := is_ticket.

Lemma hit_true tid r :
  hit tid r = true <-> Ticket.DeletedAt r = None /\ Ticket.ID r = tid.
Proof.
  unfold is_ticket, gorm.live. rewrite andb_true_iff, N.eqb_eq.
  destruct (Ticket.DeletedAt r); intuition congruence.
Qed.

(** The live rows of a ticket after an update of that ticket which keeps id
    and soft-delete stamp. *)
Lemma ticket_rows_updated tid f l :
  (forall r, Ticket.ID (f r) = Ticket.ID r /\ Ticket.DeletedAt (f r) = Ticket.DeletedAt r) ->
  (forall y, y ∈ gorm.update_where (hit tid) f l -> hit tid y = true ->
             exists x, x ∈ l /\ hit tid x = true /\ y = f x)
  /\ (forall x, x ∈ l -> hit tid x = true ->
                f x ∈ gorm.update_where (hit tid) f l /\ hit tid (f x) = true).
Proof.
  intros Hf. split.
  - intros y (x & Hx & ->)%elem_update_where Hy.
    destruct (hit tid x) eqn:Hh; [eauto|]. congruence.
  - intros x Hx Hh. split.
    + apply elem_update_where. exists x. rewrite Hh. auto.
    + apply hit_true in Hh. apply hit_true. destruct (Hf x) as [-> ->]. exact Hh.
Qed.

(** [First] on a ticket that has a live row finds a live row of it. *)
Lemma FirstTicket_finds d tid x :
  x ∈ gorm.tickets d -> hit tid x = true ->
  exists t, gorm.FirstTicket false d tid = gorm.Ok t
            /\ t ∈ gorm.tickets d /\ hit tid t = true.
Proof.
  intros Hx Hh. unfold gorm.FirstTicket.
  destruct (gorm.first_by _ _) as [t|] eqn:Hf.
  - exists t. split; [reflexivity|].
    apply first_by_elem, select_tickets_elem in Hf. destruct Hf as (Hin & Hl & Hi%N.eqb_eq).
    split; [assumption|]. apply hit_true. auto.
  - apply first_by_nil in Hf. exfalso.
    assert (Hin : x ∈ gorm.select_tickets d (fun r => (Ticket.ID r =? tid)%N)).
    { apply select_tickets_elem. apply hit_true in Hh. destruct Hh as [Hl Hi].
      repeat split; [assumption..|]. apply N.eqb_eq, Hi. }
    rewrite Hf in Hin. inversion Hin.
Qed.

Lemma PreloadTicket_FirstTicket d b t :
  gorm.FirstTicket false d (Booking.TicketID b) = gorm.Ok t -> gorm.PreloadTicket d b = t.
Proof.
  unfold gorm.FirstTicket, gorm.PreloadTicket.
  destruct (gorm.first_by _ _); [congruence|discriminate].
Qed.

(** The one path of Cancel that answers 200, with the world it leaves. *)
Lemma CancelBooking_run e w q bookingID claims b t :
  strconv.ParseUint (Param q) 32 = Some bookingID ->
  authn q = inr claims ->
  gorm.FirstBooking false (db w) (booking_of bookingID (UserID claims)) = gorm.Ok (b, t) ->
  (forall c, fails e c = false) ->
  Booking.ID b <> 0%N -> Ticket.ID t <> 0%N ->
  cancel e w q =
    (mkResp http.StatusOK [("message", JString "Booking cancelled successfully")],
     mkWorld
       (gorm.mkDB
          (gorm.update_where (hit (Ticket.ID t)) freed (gorm.tickets (db w)))
          (gorm.update_where
             (fun r => gorm.live Booking.DeletedAt r && (Booking.ID r =? Booking.ID b)%N)
             (Booking.with_Status "cancelled") (gorm.bookings (db w)))
          (gorm.bookings_id_seq (db w)))
       (delete (Booking.TicketID b) (rdb w))).
Proof.
  intros Hp Ha Hb Hok Hnb Hnt. unfold CancelBooking.
  rewrite Hp, Ha, !Hok, Hb. unfold gorm.UpdatesBooking, gorm.UpdatesTicket, redis.UnlockTicket.
  apply N.eqb_neq in Hnb, Hnt. rewrite Hnb, Hnt. reflexivity.
Qed.

(** A Reserve that meets an available ticket without a live lock, with the
    lock and the insert carried out, answers 200. *)
Lemma ReserveTicket_run e w q claims tid t :
  authn q = inr claims -> bind_TicketID q = Some tid ->
  gorm.FirstTicket (fails e FirstTicket) (db w) tid = gorm.Ok t ->
  Ticket.Status t = "available" ->
  fails e SetNX = false -> redis.GET (now e AtSetNX) (rdb w) tid = None ->
  fails e CreateBooking = false ->
  code (fst (reserve e w q)) = http.StatusOK.
Proof.
  intros Ha Ht Hf Hs Hx Hg Hc. unfold ReserveTicket.
  rewrite Ha, Ht, Hf, Hs. unfold redis.LockTicket, gorm.CreateBooking.
  rewrite Hx, Hg, Hc. reflexivity.
Qed.

(** X19: a reservation that is cancelled gives the ticket back.  After a
    Reserve that answered 200 with booking id [bid] and wrote the ticket's
    status, a Cancel of [bid] by the same user, all of whose store calls are
    carried out, answers 200 and leaves the ticket without lock, its row
    ["available"] and without owner; from then on a Reserve of that ticket by
    any authenticated user, its store calls carried out, answers 200. *)
Theorem Reserve_Cancel_Reserve e1 w q1 r1 w1 bid e2 q2 claims2 :
  keys_ok (db w) ->
  reserve e1 w q1 = (r1, w1) ->
  code r1 = http.StatusOK ->
  fails e1 UpdateTicket = false ->
  ("bookingId", JUint bid) ∈ H r1 ->
  strconv.ParseUint (Param q2) 32 = Some bid ->
  authn q2 = inr claims2 ->
  authn q1 = inr claims2 ->
  (forall c, fails e2 c = false) ->
  exists tid,
    bind_TicketID q1 = Some tid
    /\ code (fst (cancel e2 w1 q2)) = http.StatusOK
    /\ rdb (snd (cancel e2 w1 q2)) !! tid = None
    /\ (forall t', t' ∈ gorm.tickets (db (snd (cancel e2 w1 q2))) ->
                   Ticket.DeletedAt t' = None -> Ticket.ID t' = tid ->
                   Ticket.Status t' = "available" /\ Ticket.UserID t' = None)
    /\ (forall e3 q3 claims3,
          authn q3 = inr claims3 -> bind_TicketID q3 = Some tid ->
          (forall c, fails e3 c = false) ->
          code (fst (reserve e3 (snd (cancel e2 w1 q2)) q3)) = http.StatusOK).
Proof.
  intros Hk Hrun Hcode Hup Hbid Hp Ha2 Ha1 Hok.
  destruct (ReserveTicket_OK _ _ _ _ _ _ _ Hrun Hcode)
    as (claims & tid & t & locks & Ha & Ht & Hf & Hs & Hl & _ & Hw & Hr).
  rewrite Ha1 in Ha. injection Ha as <-.
  apply FirstTicket_Ok in Hf. destruct Hf as (_ & Hin & Hlive & Hid).
  pose proof (bind_TicketID_nonzero _ _ Ht) as Hnz.
  (* the booking id of the response is the next value of the sequence *)
  assert (bid = (gorm.bookings_id_seq (db w) + 1)%N) as ->.
  { subst r1. simpl in Hbid. rewrite !elem_of_cons in Hbid.
    destruct Hbid as [[= ->]|[[=]|[[=]|[[=]|Hbid]]]]; [reflexivity|inversion Hbid]. }
  (* the world after Reserve *)
  rewrite Hup, Hid in Hw. unfold gorm.UpdatesTicket in Hw.
  apply N.eqb_neq in Hnz. rewrite Hnz in Hw. apply N.eqb_neq in Hnz. simpl in Hw.
  fold (hit tid) in Hw.
  set (b := Booking.mk (gorm.bookings_id_seq (db w) + 1)%N None tid (UserID claims2)
              "reserved" (gorm.timestamptz (now e1 AtReservedAt))
              (gorm.timestamptz (time.Add (now e1 AtExpiresAt) (10 * time.Minute))) 0%N) in *.
  assert (Hh : hit tid t = true) by (apply hit_true; auto).
  destruct (ticket_rows_updated tid (Ticket.with_Status "reserved") (gorm.tickets (db w)))
    as [Hrows1 Hnew1]; [intros r; split; reflexivity|].
  destruct (Hnew1 t Hin Hh) as [Hin1 Hh1].
  (* Cancel finds the new booking and its ticket *)
  assert (Hsel : gorm.select_bookings (db w1)
                   (booking_of (gorm.bookings_id_seq (db w) + 1)%N (UserID claims2)) = [b]).
  { subst w1. unfold gorm.select_bookings. simpl. rewrite filter_app.
    replace (filter _ (gorm.bookings (db w))) with (@nil Booking.t).
    - simpl. rewrite filter_cons_True; [reflexivity|].
      unfold booking_of, gorm.live. simpl. rewrite !N.eqb_refl. exact I.
    - symmetry. apply elem_of_nil_inv. intros x (Hx1 & Hx2)%list_elem_of_filter.
      destruct Hk as [_ Hle]. apply Hle in Hx2.
      apply andb_prop_elim in Hx1. destruct Hx1 as [_ Hx1].
      apply Is_true_true, booking_of_true in Hx1. lia. }
  destruct (FirstTicket_finds (db w1) tid (Ticket.with_Status "reserved" t)) as (t1 & Hf1 & Hin2 & Hh2);
    [subst w1; exact Hin1 | exact Hh1 |].
  assert (Hfb : gorm.FirstBooking false (db w1)
                  (booking_of (gorm.bookings_id_seq (db w) + 1)%N (UserID claims2))
                = gorm.Ok (b, t1)).
  { unfold gorm.FirstBooking. rewrite Hsel. simpl.
    rewrite (PreloadTicket_FirstTicket (db w1) b t1 Hf1). reflexivity. }
  apply hit_true in Hh2. destruct Hh2 as [Hl2 Hi2].
  assert (Hcancel := CancelBooking_run e2 w1 q2 _ claims2 b t1 Hp Ha2 Hfb Hok).
  rewrite Hi2 in Hcancel. specialize (Hcancel ltac:(simpl; lia) Hnz).
  rewrite Hcancel. simpl.
  destruct (ticket_rows_updated tid freed (gorm.tickets (db w1)))
    as [Hrows2 Hnew2]; [intros r; split; reflexivity|].
  exists tid. split; [assumption|]. split; [reflexivity|].
  split; [apply lookup_delete_eq|]. split.
  - intros t' Hin' Hl' Hi'.
    destruct (Hrows2 t' Hin') as (x & _ & _ & ->); [apply hit_true; auto|].
    split; reflexivity.
  - intros e3 q3 claims3 Ha3 Ht3 Hok3.
    assert (Hin3 : Ticket.with_Status "reserved" t ∈ gorm.tickets (db w1))
      by (subst w1; exact Hin1).
    destruct (Hnew2 _ Hin3 Hh1) as [Hin4 Hh4].
    match goal with
    | |- context [reserve e3 ?w2 q3] =>
        destruct (FirstTicket_finds (db w2) tid _ Hin4 Hh4) as (t3 & Hf3 & Hin5 & Hh5)
    end.
    eapply ReserveTicket_run; [exact Ha3 | exact Ht3 | rewrite Hok3; exact Hf3 | |
                               apply Hok3 | | apply Hok3].
    + simpl in Hin5. destruct (Hrows2 t3 Hin5 Hh5) as (x & _ & _ & ->). reflexivity.
    + unfold redis.GET. simpl. rewrite lookup_delete_eq. reflexivity.
Qed.

End RoundTrip.

(** ** The same properties on the seed data *)

Lemma keys_ok_world0 : keys_ok (db world0).
Proof. split; [constructor|]. intros b Hb. inversion Hb. Qed.

Lemma keys_ok_world1 : keys_ok (db world1).
Proof.
  split.
  - apply NoDup_singleton.
  - intros b ->%list_elem_of_singleton. vm_compute. split; congruence.
Qed.




(** User 5 joined after user 3 and before user 8: position 1, served second. *)
Lemma waiting_queue_position_witness :
  redis.GetWaitingQueuePosition false queue_3_5_8 1%N 5%N = (Z.of_nat (length [8%N]), None)
  /\ fst (process (S (length [3%N])) queue_3_5_8 1%N) = served <$> (rev [3%N] ++ [5%N]).
Proof.
  apply (proj1 (waiting_queue_position queue_3_5_8 1%N 5%N) [8%N] [3%N]).
  - vm_compute; reflexivity.
  - intros [=]%list_elem_of_singleton.
Defined.

(** A Reserve of the ticket that is not available is refused and writes
    nothing. *)
Lemma ReserveTicket_refused_writes_nothing_witness :
  db (snd (Reserve (quiet (11 * time.Minute) 0.5%float) world1 (reserve_request "8" "1")))
    = db world1.
Proof.
  apply (ReserveTicket_refused_writes_nothing bearer token_claims
           (quiet (11 * time.Minute) 0.5%float) world1 (reserve_request "8" "1")).
  vm_compute; congruence.
Defined.

(** Nine minutes after user 7 reserved T1, user 8 is refused even when the
    ticket's status was never written. *)
Lemma ReserveTicket_excludes_witness :
  let e1 := mkEnv (only UpdateTicket) (at_time 0) 0.5%float in
  let w1 := snd (Reserve e1 world0 (reserve_request "7" "1")) in
  let between := [(quiet (3 * time.Minute) 0.5%float, reserve_request "8" "1");
                  (quiet (5 * time.Minute) 0.5%float, reserve_request "8" "2")] in
  let e2 := quiet (9 * time.Minute) 0.5%float in
  let w2 := in_turn Reserve between w1 in
  code (fst (Reserve e2 w2 (reserve_request "9" "1"))) <> http.StatusOK
  /\ snd (Reserve e2 w2 (reserve_request "9" "1")) = w2.
Proof.
  refine (ReserveTicket_excludes bearer token_claims
           (mkEnv (only UpdateTicket) (at_time 0) 0.5%float) world0 (reserve_request "7" "1")
           (fst (Reserve (mkEnv (only UpdateTicket) (at_time 0) 0.5%float) world0
                   (reserve_request "7" "1")))
           (snd (Reserve (mkEnv (only UpdateTicket) (at_time 0) 0.5%float) world0
                   (reserve_request "7" "1"))) _ _
           [(quiet (3 * time.Minute) 0.5%float, reserve_request "8" "1");
            (quiet (5 * time.Minute) 0.5%float, reserve_request "8" "2")]
           (quiet (9 * time.Minute) 0.5%float) (reserve_request "9" "1") _ _ _).
  - apply surjective_pairing.
  - vm_compute; reflexivity.
  - intros e q Hin _. rewrite !elem_of_cons in Hin.
    destruct Hin as [[= -> ->]|[[= -> ->]|Hin]]; [reflexivity|reflexivity|inversion Hin].
  - reflexivity.
  - reflexivity.
Defined.

(** With the gateway whose ids are numbers, the Confirm of user 7 one minute
    after the reservation goes through. *)
Lemma GetUserBookings_complete_witness :
  let r := ListBookings (quiet time.Minute 0.5%float) world1 (list_request "7" "7") in
  (forall b, b ∈ revealed r <->
             b ∈ gorm.bookings (db world1) /\ Booking.DeletedAt b = None
             /\ Booking.UserID b = UserID (mkClaims 7%N))
  /\ code r = http.StatusOK
  /\ ("count", JInt (Z.of_nat (length (revealed r)))) ∈ H r.
Proof.
  apply (GetUserBookings_complete bearer token_claims
           (quiet time.Minute 0.5%float) world1 (list_request "7" "7") (mkClaims 7%N)).
  - vm_compute; reflexivity.
  - vm_compute; reflexivity.
  - reflexivity.
Defined.

Lemma serve_keeps_keys_witness :
  keys_ok (db (snd (serve bearer token_claims (MockStripeClient 0.95%float)
                      POST_booking_reserve (quiet 0 0.5%float) world0
                      (reserve_request "7" "1")))).
Proof.
  apply (serve_keeps_keys bearer token_claims (MockStripeClient 0.95%float)
           POST_booking_reserve (quiet 0 0.5%float) world0 (reserve_request "7" "1")).
  exact keys_ok_world0.
Defined.

(** User 7 cancels booking 1: the row that changed is theirs. *)
Lemma serve_touches_own_rows_witness :
  let w' := snd (serve bearer token_claims (MockStripeClient 0.95%float)
                   DELETE_booking_cancel (quiet time.Minute 0.5%float) world1
                   (cancel_request "7" "1")) in
  exists claims b',
    authenticate bearer token_claims (cancel_request "7" "1") = inr claims
    /\ Booking.UserID B1 = UserID claims
    /\ b' ∈ gorm.bookings (db w')
    /\ Booking.ID b' = Booking.ID B1 /\ Booking.UserID b' = Booking.UserID B1.
Proof.
  apply (proj2 (serve_touches_own_rows bearer token_claims (MockStripeClient 0.95%float)
                  DELETE_booking_cancel (quiet time.Minute 0.5%float) world1
                  (cancel_request "7" "1") keys_ok_world1) B1).
  - vm_compute. left.
  - vm_compute. intros [=]%list_elem_of_singleton.
Defined.

(** User 7 reserves T1 and cancels; user 8, or anyone, can reserve it then. *)
Lemma Reserve_Cancel_Reserve_witness :
  let w2 := snd (Cancel (quiet time.Minute 0.5%float) world1 (cancel_request "7" "1")) in
  exists tid,
    bind_TicketID (reserve_request "7" "1") = Some tid
    /\ code (fst (Cancel (quiet time.Minute 0.5%float) world1 (cancel_request "7" "1")))
       = http.StatusOK
    /\ rdb w2 !! tid = None
    /\ (forall t', t' ∈ gorm.tickets (db w2) ->
                   Ticket.DeletedAt t' = None -> Ticket.ID t' = tid ->
                   Ticket.Status t' = "available" /\ Ticket.UserID t' = None)
    /\ (forall e3 q3 claims3,
          authenticate bearer token_claims q3 = inr claims3 -> bind_TicketID q3 = Some tid ->
          (forall c, fails e3 c = false) ->
          code (fst (Reserve e3 w2 q3)) = http.StatusOK).
Proof.
  apply (Reserve_Cancel_Reserve bearer token_claims
           (quiet 0 0.5%float) world0 (reserve_request "7" "1")
           (fst (Reserve (quiet 0 0.5%float) world0 (reserve_request "7" "1"))) world1
           1%N (quiet time.Minute 0.5%float) (cancel_request "7" "1") (mkClaims 7%N)).
  - exact keys_ok_world0.
  - apply surjective_pairing.
  - vm_compute; reflexivity.
  - reflexivity.
  - vm_compute. left.
  - vm_compute; reflexivity.
  - vm_compute; reflexivity.
  - vm_compute; reflexivity.
  - intros c. reflexivity.
Defined.

(** ** Accounts: the gateway's registration and login *)

Section Accounts.
Import gateway.
Variable GenerateToken : uint -> string -> option string.

Local Abbreviation register := (Register GenerateToken).
Local Abbreviation login := (Login GenerateToken).

Lemma append_same_prefix (p a b : string) : (p ++ a = p ++ b)%string -> a = b.
Proof. induction p as [|c p IH]; simpl; [auto|]. intros [= H]. auto. Qed.

Lemma verifyPassword_iff p q : verifyPassword p (hashPassword q) = true <-> p = q.
Proof.
  unfold verifyPassword, hashPassword. rewrite String.eqb_eq.
  split; [intros H; symmetry; exact (append_same_prefix _ _ _ H) | intros ->; reflexivity].
Qed.

(** X20: a password verifies against the hash of that password and of no
    other: [verifyPassword p (hashPassword q)] says true exactly when [p] is
    [q], and the only hash a password verifies against is its own. *)
Theorem verifyPassword_hashPassword p q h :
  (verifyPassword p (hashPassword q) = true <-> p = q)
  /\ (verifyPassword p h = true <-> h = hashPassword p).
Proof.
  split; [apply verifyPassword_iff|].
  unfold verifyPassword, hashPassword. apply String.eqb_eq.
Qed.

Lemma FirstByEmail_Ok fault d email u :
  FirstByEmail fault d email = Ok u ->
  fault = false /\ u ∈ users d /\ DeletedAt u = None /\ Email u = email.
Proof.
  unfold FirstByEmail. destruct fault; [discriminate|].
  destruct (gorm.first_by _ _) as [u'|] eqn:Hf; [|discriminate].
  intros [= <-]. apply first_by_elem, list_elem_of_filter in Hf.
  destruct Hf as [Hc Hin]. apply andb_prop_elim in Hc. destruct Hc as [Hl He].
  apply Is_true_true in Hl, He. apply String.eqb_eq in He.
  unfold gorm.live in Hl. destruct (DeletedAt u') eqn:Hd; [discriminate|]. auto.
Qed.

Lemma existsb_email_false (l : list User) email :
  existsb (fun r => String.eqb (Email r) email) l = false ->
  forall r, r ∈ l -> Email r <> email.
Proof.
  intros He r Hr Heq.
  assert (Ht : existsb (fun r => String.eqb (Email r) email) l = true).
  { apply existsb_exists. exists r. split; [apply list_elem_of_In, Hr|].
    apply String.eqb_eq, Heq. }
  congruence.
Qed.

(** What a Register that wrote to the table has written: one new row, under
    the next id, live, with the requested email and name and the hash of the
    password, and no other row has that email. *)
Lemma Register_created fails d req r d' :
  register fails d (Some req) = (r, d') -> d' <> d ->
  let u := mkUser (users_id_seq d + 1)%N None (reg_Email req)
             (hashPassword (reg_Password req)) (reg_Name req) in
  d' = mkUsers (users d ++ [u]) (users_id_seq d + 1)%N
  /\ (forall x, x ∈ users d -> Email x <> reg_Email req)
  /\ r = match GenerateToken (ID u) (Email u) with
         | Some token => mkResp StatusCreated (session token u)
         | None => error_response http.StatusInternalServerError "Failed to generate token"
         end.
Proof.
  unfold Register.
  destruct (FirstByEmail _ _ _); [intros [= _ <-] Hne; congruence|].
  unfold Create. destruct (fails CallCreate); [intros [= _ <-] Hne; congruence|].
  destruct (existsb _ _) eqn:Hex; [intros [= _ <-] Hne; congruence|].
  simpl. pose proof (existsb_email_false _ _ Hex) as Hfresh.
  destruct (GenerateToken _ _); intros [= <- <-] _; auto.
Qed.

Lemma filter_email_fresh (l : list User) email u :
  (forall x, x ∈ l -> Email x <> email) ->
  DeletedAt u = None -> Email u = email ->
  filter (fun u => gorm.live DeletedAt u && String.eqb (Email u) email) (l ++ [u]) = [u].
Proof.
  intros Hfresh Hl He. rewrite filter_app.
  replace (filter _ l) with (@nil User).
  - simpl. rewrite filter_cons_True; [reflexivity|].
    unfold gorm.live. rewrite Hl. simpl. apply Is_true_true, String.eqb_eq, He.
  - symmetry. apply elem_of_nil_inv. intros x (Hx1 & Hx2)%list_elem_of_filter.
    apply andb_prop_elim in Hx1. destruct Hx1 as [_ Hx1].
    apply Is_true_true, String.eqb_eq in Hx1. exact (Hfresh x Hx2 Hx1).
Qed.

(** X21: an account that Register has created can log in with its password
    and with no other.  After a Register that wrote to the table, a Login
    with the same email, its query carried out, answers 401 "Invalid
    credentials" for every other password, and for the registered password
    answers 200 with a token generated for the id, email and name of the new
    row (500 when no token can be generated).  This holds as well when
    Register itself answered 500 because its own token could not be
    generated: the account exists all the same. *)
Theorem Register_then_Login fails d req r d' fails2 password :
  register fails d (Some req) = (r, d') -> d' <> d ->
  fails2 CallFirst = false ->
  let u := mkUser (users_id_seq d + 1)%N None (reg_Email req)
             (hashPassword (reg_Password req)) (reg_Name req) in
  login fails2 d' (Some (mkLogin (reg_Email req) password)) =
    (if String.eqb password (reg_Password req)
     then match GenerateToken (ID u) (Email u) with
          | Some token => mkResp http.StatusOK (session token u)
          | None => error_response http.StatusInternalServerError "Failed to generate token"
          end
     else error_response http.StatusUnauthorized "Invalid credentials",
     d').
Proof.
  intros Hrun Hne Hok u.
  destruct (Register_created _ _ _ _ _ Hrun Hne) as (-> & Hfresh & _).
  unfold Login, FirstByEmail. rewrite Hok. cbn [users login_Email login_Password].
  pose proof (filter_email_fresh (users d) (reg_Email req) u Hfresh eq_refl eq_refl) as Hsel.
  unfold u in Hsel at 1. rewrite Hsel. simpl gorm.first_by. cbv iota.
  change (Password u) with (hashPassword (reg_Password req)).
  destruct (String.eqb password (reg_Password req)) eqn:Hp.
  - apply String.eqb_eq, verifyPassword_iff in Hp. rewrite Hp. simpl negb. cbv iota.
    destruct (GenerateToken _ _); reflexivity.
  - destruct (verifyPassword password (hashPassword (reg_Password req))) eqn:Hvp; [|reflexivity].
    apply verifyPassword_iff in Hvp. subst. rewrite String.eqb_refl in Hp. discriminate.
Qed.

(** X22: Login never writes, and its 200 is sound.  Whatever the request and
    the faults of the store, the table of users is left as it was; and an
    answer 200 is only given for a live row of the table with the requested
    email whose stored hash is the hash of the requested password, and it
    carries the token generated for that row. *)
Theorem Login_sound fails d bound r d' :
  login fails d bound = (r, d') ->
  d' = d
  /\ (code r = http.StatusOK ->
      exists req u token,
        bound = Some req /\ u ∈ users d /\ DeletedAt u = None
        /\ Email u = login_Email req
        /\ Password u = hashPassword (login_Password req)
        /\ GenerateToken (ID u) (Email u) = Some token
        /\ r = mkResp http.StatusOK (session token u)).
Proof.
  unfold Login. destruct bound as [req|]; [|intros [= <- <-]; split; [reflexivity|discriminate]].
  destruct (FirstByEmail _ _ _) as [u|e] eqn:Hf;
    [|intros [= <- <-]; split; [reflexivity|discriminate]].
  destruct (verifyPassword _ _) eqn:Hv; simpl negb; cbv iota;
    [|intros [= <- <-]; split; [reflexivity|discriminate]].
  apply FirstByEmail_Ok in Hf. destruct Hf as (_ & Hin & Hl & He).
  apply String.eqb_eq in Hv.
  destruct (GenerateToken _ _) as [token|] eqn:Ht; intros [= <- <-];
    (split; [reflexivity|]); [|discriminate].
  intros _. exists req, u, token. auto 10.
Qed.

(** X23: Register keeps the emails of the table distinct, and an email that
    some row already carries is never registered a second time: the table is
    left as it was and the answer is 409 "User already exists" or 500 "Failed
    to create user".  When every row with that email is soft-deleted the
    answer is the 500: the lookup does not see the row, the unique index
    does, so the email of a deleted account cannot be registered again. *)
Theorem Register_emails_unique fails d bound r d' :
  emails_unique d ->
  register fails d bound = (r, d') ->
  emails_unique d'
  /\ (forall req x, bound = Some req -> x ∈ users d -> Email x = reg_Email req ->
      d' = d
      /\ (r = error_response http.StatusConflict "User already exists"
          \/ r = error_response http.StatusInternalServerError "Failed to create user")
      /\ ((forall y, y ∈ users d -> Email y = reg_Email req -> DeletedAt y <> None) ->
          r = error_response http.StatusInternalServerError "Failed to create user")).
Proof.
  intros Hu Hrun. split.
  - destruct bound as [req|]; [|injection Hrun as _ <-; exact Hu].
    revert Hrun. unfold Register.
    destruct (FirstByEmail _ _ _); [intros [= _ <-]; exact Hu|].
    unfold Create. destruct (fails CallCreate); [intros [= _ <-]; exact Hu|].
    destruct (existsb _ _) eqn:Hex; [intros [= _ <-]; exact Hu|].
    simpl. pose proof (existsb_email_false _ _ Hex) as Hfresh.
    intros Hrun.
    assert (d' = mkUsers (users d ++ [mkUser (users_id_seq d + 1)%N None (reg_Email req)
                            (hashPassword (reg_Password req)) (reg_Name req)])
                         (users_id_seq d + 1)%N) as ->
      by (destruct (GenerateToken _ _); injection Hrun as _ <-; reflexivity).
    unfold emails_unique in *. cbn [users]. rewrite fmap_app. apply NoDup_app.
    split; [exact Hu|]. split; [|apply NoDup_singleton].
    intros em (x & -> & Hx)%list_elem_of_fmap He. simpl in He.
    apply list_elem_of_singleton in He. exact (Hfresh x Hx He).
  - intros req x -> Hx He. revert Hrun. unfold Register.
    destruct (FirstByEmail _ _ _) as [u|e] eqn:Hf.
    + intros [= <- <-]. split; [reflexivity|]. split; [auto|].
      intros Hdel. apply FirstByEmail_Ok in Hf. destruct Hf as (_ & Hin & Hl & Hem).
      destruct (Hdel u Hin Hem Hl).
    + unfold Create. destruct (fails CallCreate); [intros [= <- <-]; auto|].
      destruct (existsb _ _) eqn:Hex; [intros [= <- <-]; auto|].
      destruct (existsb_email_false _ _ Hex x Hx He).
Qed.

End Accounts.

Lemma Register_then_Login_witness :
  let u := gateway.mkUser 1%N None "alice@example.com" "hashed_s3cret!" "Alice" in
  gateway.Login decimal_token all_work accounts1
    (Some (gateway.mkLogin "alice@example.com" "s3cret!"))
  = (gateway.mkResp http.StatusOK (gateway.session "1" u), accounts1)
  /\ gateway.Login decimal_token all_work accounts1
       (Some (gateway.mkLogin "alice@example.com" "secret!"))
     = (gateway.error_response http.StatusUnauthorized "Invalid credentials", accounts1).
Proof.
  split.
  - apply (Register_then_Login decimal_token all_work (gateway.mkUsers [] 0%N) alice
             (fst (gateway.Register decimal_token all_work (gateway.mkUsers [] 0%N) (Some alice)))
             accounts1 all_work "s3cret!").
    + apply surjective_pairing.
    + vm_compute. discriminate.
    + reflexivity.
  - apply (Register_then_Login decimal_token all_work (gateway.mkUsers [] 0%N) alice
             (fst (gateway.Register decimal_token all_work (gateway.mkUsers [] 0%N) (Some alice)))
             accounts1 all_work "secret!").
    + apply surjective_pairing.
    + vm_compute. discriminate.
    + reflexivity.
Defined.

Lemma Login_sound_witness :
  let r := fst (gateway.Login decimal_token all_work accounts1
                  (Some (gateway.mkLogin "alice@example.com" "s3cret!"))) in
  accounts1 = accounts1
  /\ (gateway.code r = http.StatusOK ->
      exists req u token,
        Some (gateway.mkLogin "alice@example.com" "s3cret!") = Some req
        /\ u ∈ gateway.users accounts1 /\ gateway.DeletedAt u = None
        /\ gateway.Email u = gateway.login_Email req
        /\ gateway.Password u = gateway.hashPassword (gateway.login_Password req)
        /\ decimal_token (gateway.ID u) (gateway.Email u) = Some token
        /\ r = gateway.mkResp http.StatusOK (gateway.session token u)).
Proof.
  apply (Login_sound decimal_token all_work accounts1
           (Some (gateway.mkLogin "alice@example.com" "s3cret!"))).
  vm_compute; reflexivity.
Defined.

Lemma Register_emails_unique_witness :
  let run := gateway.Register decimal_token all_work accounts1 (Some alice) in
  gateway.emails_unique (snd run)
  /\ (forall req x, Some alice = Some req -> x ∈ gateway.users accounts1 ->
      gateway.Email x = gateway.reg_Email req ->
      snd run = accounts1
      /\ (fst run = gateway.error_response http.StatusConflict "User already exists"
          \/ fst run
             = gateway.error_response http.StatusInternalServerError "Failed to create user")
      /\ ((forall y, y ∈ gateway.users accounts1 -> gateway.Email y = gateway.reg_Email req ->
                     gateway.DeletedAt y <> None) ->
          fst run
          = gateway.error_response http.StatusInternalServerError "Failed to create user")).
Proof.
  apply (Register_emails_unique decimal_token all_work accounts1 (Some alice)).
  - vm_compute. apply NoDup_singleton.
  - apply surjective_pairing.
Defined.

(** ** The search document of an event *)

(** *** The order of [float64]

    [<] on [float64] as the specification of the primitive floats gives it:
    irreflexive, transitive, total on numbers, and false on NaN. *)

Lemma SFcompare_opp a b :
  SpecFloat.SFcompare b a = option_map CompOpp (SpecFloat.SFcompare a b).
Proof.
  destruct a as [[]|[]| |[] m1 e1], b as [[]|[]| |[] m2 e2]; try reflexivity; simpl;
    pose proof (Pos.compare_antisym m1 m2) as Hm; unfold Pos.compare in Hm;
    rewrite (Z.compare_antisym e1 e2), Hm;
    destruct (e1 ?= e2)%Z, (PosDef.Pos.compare_cont Eq m1 m2); reflexivity.
Qed.

Lemma SFcompare_Lt_trans a b c :
  SpecFloat.SFcompare a b = Some Lt -> SpecFloat.SFcompare b c = Some Lt ->
  SpecFloat.SFcompare a c = Some Lt.
Proof.
  destruct a as [[]|[]| |[] m1 e1], b as [[]|[]| |[] m2 e2], c as [[]|[]| |[] m3 e3];
    simpl; try congruence; change (PosDef.Pos.compare_cont Eq) with Pos.compare;
    destruct (Z.compare_spec e1 e2), (Z.compare_spec e2 e3); try congruence;
    destruct (Pos.compare_spec m1 m2), (Pos.compare_spec m2 m3); simpl; try congruence;
    intros _ _; f_equal.
  all: try (destruct (Z.compare_spec e1 e3); try lia; try reflexivity).
  all: try (destruct (Pos.compare_spec m1 m3); simpl; try lia; try reflexivity).
Qed.

Lemma SFcompare_refl a :
  SpecFloat.SFcompare a a = None \/ SpecFloat.SFcompare a a = Some Eq.
Proof.
  destruct a as [[]|[]| |[] m e]; simpl; auto;
    change (PosDef.Pos.compare_cont Eq) with Pos.compare;
    rewrite Z.compare_refl, Pos.compare_refl; auto.
Qed.

Lemma SFcompare_None a b :
  SpecFloat.SFcompare a b = None <-> a = SpecFloat.S754_nan \/ b = SpecFloat.S754_nan.
Proof.
  destruct a as [[]|[]| |[] m1 e1], b as [[]|[]| |[] m2 e2]; simpl; split; auto;
    try discriminate; intros [|]; discriminate.
Qed.

Lemma ltb_irrefl (x : float64) : PrimFloat.ltb x x = false.
Proof.
  rewrite FloatAxioms.ltb_spec. unfold SpecFloat.SFltb.
  destruct (SFcompare_refl (FloatOps.Prim2SF x)) as [-> | ->]; reflexivity.
Qed.

Lemma ltb_trans (x y z : float64) :
  PrimFloat.ltb x y = true -> PrimFloat.ltb y z = true -> PrimFloat.ltb x z = true.
Proof.
  rewrite !FloatAxioms.ltb_spec. unfold SpecFloat.SFltb. intros Hxy Hyz.
  rewrite (SFcompare_Lt_trans (FloatOps.Prim2SF x) (FloatOps.Prim2SF y) (FloatOps.Prim2SF z));
    [reflexivity| |].
  - destruct (SpecFloat.SFcompare _ (FloatOps.Prim2SF y)) as [[]|]; congruence.
  - destruct (SpecFloat.SFcompare _ (FloatOps.Prim2SF z)) as [[]|]; congruence.
Qed.

Lemma is_NaN_spec (x : float64) :
  cdc.is_NaN x = true <-> FloatOps.Prim2SF x = SpecFloat.S754_nan.
Proof.
  unfold cdc.is_NaN. rewrite FloatAxioms.eqb_spec. unfold SpecFloat.SFeqb. split.
  - destruct (SFcompare_refl (FloatOps.Prim2SF x)) as [H|H]; rewrite H; [|discriminate].
    intros _. apply SFcompare_None in H. tauto.
  - intros ->. reflexivity.
Qed.

Lemma ltb_NaN (x y : float64) :
  cdc.is_NaN x = true -> PrimFloat.ltb x y = false /\ PrimFloat.ltb y x = false.
Proof.
  intros H%is_NaN_spec. rewrite !FloatAxioms.ltb_spec. unfold SpecFloat.SFltb.
  rewrite H. simpl. destruct (FloatOps.Prim2SF y); auto.
Qed.

Lemma ltb_false_leb (x y : float64) :
  cdc.is_NaN x = false -> cdc.is_NaN y = false ->
  PrimFloat.ltb x y = false -> PrimFloat.leb y x = true.
Proof.
  intros Hx Hy. rewrite FloatAxioms.ltb_spec, FloatAxioms.leb_spec.
  unfold SpecFloat.SFltb, SpecFloat.SFleb.
  rewrite (SFcompare_opp (FloatOps.Prim2SF x) (FloatOps.Prim2SF y)).
  destruct (SpecFloat.SFcompare (FloatOps.Prim2SF x) (FloatOps.Prim2SF y)) as [[]|] eqn:Hc;
    simpl; try congruence.
  apply SFcompare_None in Hc. intros _.
  destruct Hc as [Hc|Hc]; apply is_NaN_spec in Hc; congruence.
Qed.

(** *** The loop over the tickets *)

Lemma price_range_count (l : list Ticket.t) mn mx n :
  (fold_left cdc.price_range_step l (mn, mx, n)).2
  = n + Z.of_nat (length (filter (fun t => Ticket.Status t = "available") l)).
Proof.
  revert mn mx n. induction l as [|t l IH]; intros mn mx n; cbn [fold_left].
  - simpl. lia.
  - unfold cdc.price_range_step at 2. rewrite IH.
    destruct (String.eqb_spec (Ticket.Status t) "available") as [He|He].
    + rewrite filter_cons_True by exact He. simpl length. lia.
    + rewrite filter_cons_False by exact He. lia.
Qed.

Lemma price_range_step_keeps seen mn mx n t :
  price_range seen mn mx ->
  let '(mn', mx', _) := cdc.price_range_step (mn, mx, n) t in
  price_range (seen ++ [Ticket.Price t]) mn' mx'.
Proof.
  intros (Hmn & Hmx & Hb). unfold cdc.price_range_step, cdc.gtb.
  split; [|split].
  - apply elem_of_app. destruct (PrimFloat.ltb _ mn);
      [right; apply list_elem_of_singleton; reflexivity | left; exact Hmn].
  - apply elem_of_app. destruct (PrimFloat.ltb mx _);
      [right; apply list_elem_of_singleton; reflexivity | left; exact Hmx].
  - intros p [Hp|Hp%list_elem_of_singleton]%elem_of_app.
    + destruct (Hb p Hp) as [H1 H2]. split.
      * destruct (PrimFloat.ltb (Ticket.Price t) mn) eqn:Hlt; [|exact H1].
        destruct (PrimFloat.ltb p (Ticket.Price t)) eqn:Hlt2; [|reflexivity].
        rewrite (ltb_trans _ _ _ Hlt2 Hlt) in H1. discriminate.
      * destruct (PrimFloat.ltb mx (Ticket.Price t)) eqn:Hlt; [|exact H2].
        destruct (PrimFloat.ltb (Ticket.Price t) p) eqn:Hlt2; [|reflexivity].
        rewrite (ltb_trans _ _ _ Hlt Hlt2) in H2. discriminate.
    + subst p. split.
      * destruct (PrimFloat.ltb (Ticket.Price t) mn) eqn:Hlt; [apply ltb_irrefl|exact Hlt].
      * destruct (PrimFloat.ltb mx (Ticket.Price t)) eqn:Hlt; [apply ltb_irrefl|exact Hlt].
Qed.

Lemma price_range_fold (l : list Ticket.t) seen mn mx n :
  price_range seen mn mx ->
  let '(mn', mx', _) := fold_left cdc.price_range_step l (mn, mx, n) in
  price_range (seen ++ (Ticket.Price <$> l)) mn' mx'.
Proof.
  revert seen mn mx n. induction l as [|t l IH]; intros seen mn mx n Hinv.
  - simpl. rewrite app_nil_r. exact Hinv.
  - cbn [fold_left]. pose proof (price_range_step_keeps seen mn mx n t Hinv) as Hs.
    destruct (cdc.price_range_step (mn, mx, n) t) as [[mn1 mx1] n1].
    specialize (IH _ mn1 mx1 n1 Hs). rewrite <- app_assoc in IH. exact IH.
Qed.

Lemma price_range_NaN (l : list Ticket.t) p n :
  cdc.is_NaN p = true ->
  exists n', fold_left cdc.price_range_step l (p, p, n) = (p, p, n').
Proof.
  intros Hp. revert n. induction l as [|t l IH]; intros n; [eexists; reflexivity|].
  cbn [fold_left]. unfold cdc.price_range_step at 2, cdc.gtb.
  destruct (ltb_NaN p (Ticket.Price t) Hp) as [-> ->]. apply IH.
Qed.

Section Documents.
Variable Format : Z -> string.
Local Abbreviation convert := (cdc.convertToElasticsearchEvent Format).

(** X24: the document of an event counts as available exactly the loaded
    tickets whose status is "available", whatever their prices and owners;
    an event without tickets gets the count 0 and the prices 0. *)
Theorem convert_counts_available (event : Event.t) :
  ElasticsearchEvent.AvailableTickets (convert event)
  = Z.of_nat (length (filter (fun t => Ticket.Status t = "available") (Event.Tickets event)))
  /\ (Event.Tickets event = [] ->
      ElasticsearchEvent.MinPrice (convert event) = 0%float
      /\ ElasticsearchEvent.MaxPrice (convert event) = 0%float).
Proof.
  unfold cdc.convertToElasticsearchEvent. split.
  - destruct (Event.Tickets event) as [|t0 l] eqn:Ht; [reflexivity|].
    pose proof (price_range_count (t0 :: l) (Ticket.Price t0) (Ticket.Price t0) 0) as Hc.
    destruct (fold_left _ _ _) as [[mn mx] n]. simpl in Hc |- *. lia.
  - intros ->. split; reflexivity.
Qed.

(** X25: the price range of the document.  For an event with tickets,
    [MinPrice] and [MaxPrice] are prices of tickets of the event, no ticket
    of the event has a price below [MinPrice] or above [MaxPrice], and when
    no price is NaN every price lies between them:
    [MinPrice <= Price <= MaxPrice]. *)
Theorem convert_price_range (event : Event.t) :
  Event.Tickets event <> [] ->
  let doc := convert event in
  (exists t, t ∈ Event.Tickets event /\ ElasticsearchEvent.MinPrice doc = Ticket.Price t)
  /\ (exists t, t ∈ Event.Tickets event /\ ElasticsearchEvent.MaxPrice doc = Ticket.Price t)
  /\ (forall t, t ∈ Event.Tickets event ->
        PrimFloat.ltb (Ticket.Price t) (ElasticsearchEvent.MinPrice doc) = false
        /\ cdc.gtb (Ticket.Price t) (ElasticsearchEvent.MaxPrice doc) = false)
  /\ ((forall t, t ∈ Event.Tickets event -> cdc.is_NaN (Ticket.Price t) = false) ->
      forall t, t ∈ Event.Tickets event ->
        PrimFloat.leb (ElasticsearchEvent.MinPrice doc) (Ticket.Price t) = true
        /\ PrimFloat.leb (Ticket.Price t) (ElasticsearchEvent.MaxPrice doc) = true).
Proof.
  intros Hne doc. subst doc. unfold cdc.convertToElasticsearchEvent.
  destruct (Event.Tickets event) as [|t0 l] eqn:Ht; [congruence|]. clear Hne.
  assert (Hinit : price_range [Ticket.Price t0] (Ticket.Price t0) (Ticket.Price t0)).
  { split; [apply list_elem_of_singleton; reflexivity|].
    split; [apply list_elem_of_singleton; reflexivity|].
    intros p ->%list_elem_of_singleton. split; apply ltb_irrefl. }
  pose proof (price_range_fold (t0 :: l) _ _ _ 0 Hinit) as Hf.
  destruct (fold_left _ _ _) as [[mn mx] n]. simpl ElasticsearchEvent.MinPrice.
  simpl ElasticsearchEvent.MaxPrice. destruct Hf as (Hmn & Hmx & Hb).
  assert (Hin : forall p, p ∈ [Ticket.Price t0] ++ (Ticket.Price <$> t0 :: l) ->
                          exists t, t ∈ t0 :: l /\ p = Ticket.Price t).
  { intros p [->%list_elem_of_singleton|(t & -> & Hp)%list_elem_of_fmap]%elem_of_app.
    - exists t0. split; [left|reflexivity].
    - exists t. auto. }
  assert (Hall : forall t, t ∈ t0 :: l ->
                 Ticket.Price t ∈ [Ticket.Price t0] ++ (Ticket.Price <$> t0 :: l)).
  { intros t Hin'. apply elem_of_app. right. apply list_elem_of_fmap. exists t. auto. }
  split; [apply Hin, Hmn|]. split; [apply Hin, Hmx|]. split.
  - intros t Hin'. exact (Hb _ (Hall t Hin')).
  - intros Hnum t Hin'. destruct (Hb _ (Hall t Hin')) as [H1 H2].
    destruct (Hin _ Hmn) as (tn & Htn & ->). destruct (Hin _ Hmx) as (tx & Htx & ->).
    split; apply ltb_false_leb; auto.
Qed.

(** X26: a first ticket whose price is NaN hides the prices of all the
    others: every comparison with it fails, so both [MinPrice] and
    [MaxPrice] of the document are that NaN. *)
Theorem convert_first_price_NaN (event : Event.t) first rest :
  Event.Tickets event = first :: rest ->
  cdc.is_NaN (Ticket.Price first) = true ->
  ElasticsearchEvent.MinPrice (convert event) = Ticket.Price first
  /\ ElasticsearchEvent.MaxPrice (convert event) = Ticket.Price first.
Proof.
  intros Ht Hnan. unfold cdc.convertToElasticsearchEvent. rewrite Ht.
  destruct (price_range_NaN (first :: rest) (Ticket.Price first) 0 Hnan) as (n' & ->).
  split; reflexivity.
Qed.

End Documents.

Lemma convert_price_range_witness :
  let doc := cdc.convertToElasticsearchEvent unix_stamp concert in
  (exists t, t ∈ Event.Tickets concert /\ ElasticsearchEvent.MinPrice doc = Ticket.Price t)
  /\ (exists t, t ∈ Event.Tickets concert /\ ElasticsearchEvent.MaxPrice doc = Ticket.Price t)
  /\ (forall t, t ∈ Event.Tickets concert ->
        PrimFloat.ltb (Ticket.Price t) (ElasticsearchEvent.MinPrice doc) = false
        /\ cdc.gtb (Ticket.Price t) (ElasticsearchEvent.MaxPrice doc) = false)
  /\ ((forall t, t ∈ Event.Tickets concert -> cdc.is_NaN (Ticket.Price t) = false) ->
      forall t, t ∈ Event.Tickets concert ->
        PrimFloat.leb (ElasticsearchEvent.MinPrice doc) (Ticket.Price t) = true
        /\ PrimFloat.leb (Ticket.Price t) (ElasticsearchEvent.MaxPrice doc) = true).
Proof.
  apply (convert_price_range unix_stamp concert). discriminate.
Defined.

Lemma convert_first_price_NaN_witness :
  let event := Event.mk 1%N 1%N 1%N "Concert" "" 0
                 (Event.Venue concert) (Event.Performer concert)
                 (Ticket.mk 9%N None 1%N "A-0" PrimFloat.nan "available" None
                  :: Event.Tickets concert) in
  ElasticsearchEvent.MinPrice (cdc.convertToElasticsearchEvent unix_stamp event) = PrimFloat.nan
  /\ ElasticsearchEvent.MaxPrice (cdc.convertToElasticsearchEvent unix_stamp event)
     = PrimFloat.nan.
Proof.
  apply (convert_first_price_NaN unix_stamp
           (Event.mk 1%N 1%N 1%N "Concert" "" 0
              (Event.Venue concert) (Event.Performer concert)
              (Ticket.mk 9%N None 1%N "A-0" PrimFloat.nan "available" None
               :: Event.Tickets concert))
           (Ticket.mk 9%N None 1%N "A-0" PrimFloat.nan "available" None)
           (Event.Tickets concert)).
  - reflexivity.
  - reflexivity.
Defined.
